(** * core/views.py: the dataset table request pipeline

    A shallow embedding of [queryset_to_csv] and [dataset_detail] from
    [core/views.py], with the properties of the CSV encoder, the export
    guards, and the parameter and table checks that precede them. *)

From stdpp Require Import base option list strings gmap.
From Stdlib Require Import Ascii ZArith Lia.

Local Open Scope string_scope.
Local Open Scope Z_scope.
Local Open Scope list_scope.

(** ** Python values the views rely on *)

(** Exceptions that the modelled code can let escape. *)
Inductive PyExn :=
| KeyError (key : string)
| IndexError.

(** Truth value of a [str]: only the empty string is falsy. *)
Definition str_truthy (s : string) : bool :=
  match s with
  | EmptyString => false
  | String _ _ => true
  end.

(** [a or b] on strings. *)
Definition str_or (a b : string) : string :=
  if str_truthy a then a else b.

(** [sub in s] on strings: [sub] occurs in [s] as a contiguous run. *)
Fixpoint str_in (sub s : string) : bool :=
  String.prefix sub s ||
  match s with
  | EmptyString => false
  | String _ s' => str_in sub s'
  end.

(** ** [dict]: insertion-ordered, assignment to a present key keeps its place *)

Module PyDict.
Section Dict.
Context {V : Type}.

Definition t := list (string * V).

Definition empty : t := [].

(** [d[k] = v] *)
Fixpoint setitem (d : t) (k : string) (v : V) : t :=
match d with
| [] => [(k, v)]
| (k', v') :: d' =>
    if String.eqb k' k then (k', v) :: d' else (k', v') :: setitem d' k v
end.

(** [d[k]]; [None] stands for the [KeyError]. *)
Fixpoint getitem (d : t) (k : string) : option V :=
match d with
| [] => None
| (k', v') :: d' => if String.eqb k' k then Some v' else getitem d' k
end.

(** [list(d.keys())] *)
Definition keys (d : t) : list string := d.*1.

(** [[d[k] for k in ks]]: the values, or the first key that is missing. *)
Fixpoint getitems (d : t) (ks : list string) : PyExn + list V :=
match ks with
| [] => inr []
| k :: ks' =>
    match getitem d k with
    | None => inl (KeyError k)
    | Some v =>
        match getitems d ks' with
        | inl e => inl e
        | inr vs => inr (v :: vs)
        end
    end
end.
End Dict.
Arguments t : clear implicits.
End PyDict.

(** ** Field descriptors (core.models.Field, the attributes the views read) *)

Module Field.
Record t := mk {
  name : string;
  show_on_frontend : bool;
  obfuscate : bool;
}.
End Field.

(** ** [queryset_to_csv] *)

Section QuerysetToCsv.
Context {Value : Type}.
(** [core.templatetags.utils.obfuscate] *)
Context (obfuscate : Value → Value).

(** A row of the dynamic model: [getattr(row, name)]. *)
Definition Row := string → Value.

(** What the generator yields: the list of keys once, then lists of values. *)
Inductive csv_row :=
| header_row (names : list string)
| data_row (values : list Value).

(** The condition of the [continue] branch. *)
Definition skipped (field : Field.t) : bool :=
  negb (Field.show_on_frontend field) || String.eqb (Field.name field) "search_data".

(** One turn of [for field in fields]. *)
Definition row_data_step (row : Row) (row_data : PyDict.t Value) (field : Field.t)
  : PyDict.t Value :=
  if skipped field then row_data
  else
    let value := row (Field.name field) in
    let value := if Field.obfuscate field then obfuscate value else value in
    PyDict.setitem row_data (Field.name field) value.

(** [row_data] after the inner loop. *)
Definition build_row_data (fields : list Field.t) (row : Row) : PyDict.t Value :=
  foldl (row_data_step row) PyDict.empty fields.

(** The outer loop, started with the current [header]; the result is what
    was yielded, and the exception that ended the generator, if any. *)
Fixpoint csv_loop (fields : list Field.t) (header : option (list string))
    (rows : list Row) : list csv_row * option PyExn :=
  match rows with
  | [] => ([], None)
  | row :: rest =>
      let row_data := build_row_data fields row in
      let '(header, yielded) :=
        match header with
        | None => let header := PyDict.keys row_data in (header, [header_row header])
        | Some header => (header, [])
        end in
      match PyDict.getitems row_data header with
      | inl e => (yielded, Some e)
      | inr values =>
          let '(more, e) := csv_loop fields (Some header) rest in
          (yielded ++ data_row values :: more, e)
      end
  end.

Definition queryset_to_csv (data : list Row) (fields : list Field.t)
  : list csv_row * option PyExn :=
  csv_loop fields None data.
End QuerysetToCsv.
Arguments Row : clear implicits.
Arguments csv_row : clear implicits.

(** ** Requests and [QueryDict] *)

(** A [QueryDict] maps a key to the list of its values, in query-string
    order.  It is only ever built by [QueryDict_of], from the key/value pairs
    of the query string. *)
Definition QueryDict_appendlist (q : gmap string (list string)) (kv : string * string)
  : gmap string (list string) :=
  <[kv.1 := default [] (q !! kv.1) ++ [kv.2]]> q.

Definition QueryDict_of (pairs : list (string * string)) : gmap string (list string) :=
  foldl QueryDict_appendlist ∅ pairs.

(** [q.pop(key, default)]: the stored list (or the default) and what is left. *)
Definition QueryDict_pop (key : string) (default_ : list string)
    (q : gmap string (list string)) : list string * gmap string (list string) :=
  (default default_ (q !! key), delete key q).

(** [for key, value in list(q.items()): if not value: del q[key]]; [items()]
    pairs a key with the last value of its list, and with [[]] when the list is
    empty. *)
Definition QueryDict_drop_empty (q : gmap string (list string))
  : gmap string (list string) :=
  filter (λ kv, from_option str_truthy false (last kv.2) = true) q.

Record HttpRequest := {
  (** the key/value pairs [request.GET] is parsed from *)
  query_pairs : list (string * string);
  (** [request.headers] *)
  headers : gmap string string;
  (** [request.user.is_superuser] *)
  user_is_superuser : bool;
}.

(** [request.GET] *)
Definition GET (request : HttpRequest) : gmap string (list string) :=
  QueryDict_of (query_pairs request).

(** ** What the views take from elsewhere *)

(** Builtins and the standard library. *)
Class Python := {
  (** [int(s)]; [None] is the [ValueError] *)
  int : string → option Z;
  (** [str(n)] *)
  str : Z → string;
  (** [s.strip()] *)
  strip : string → string;
  (** [s.lower()] *)
  lower : string → string;
  (** the value of [uuid.uuid4().hex] in this call *)
  uuid4_hex : string;
}.

(** [django.conf.settings] *)
Class Settings := {
  ROWS_PER_PAGE : Z;
  CSV_EXPORT_MAX_ROWS : Z;
  BLOCKED_AGENTS : list string;
}.

(** [core.models], the dynamic table model and [core.templatetags.utils]. *)
Class Models := {
  Value : Type;
  Dataset : Type;
  Table : Type;
  Version : Type;
  Query : Type;
  SearchQuery : Type;
  OrderBy : Type;
  obfuscate : Value → Value;
  (** [Dataset.objects.get(slug=slug)]; [None] is [Dataset.DoesNotExist] *)
  Dataset_objects_get : string → option Dataset;
  get_default_table : Dataset → Table;
  (** [dataset.get_table(tablename, allow_hidden=...)]; [None] is
      [Table.DoesNotExist] *)
  get_table : Dataset → string → bool → option Table;
  Table_name : Table → string;
  Table_fields : Table → list Field.t;
  files_url : Dataset → string;
  (** [dataset.version_set.order_by("-order").first()] *)
  version_first : Dataset → option Version;
  (** [TableModel.objects.parse_querystring] for the model of a table *)
  parse_querystring : Table → gmap string (list string) → Query * SearchQuery * OrderBy;
  (** [TableModel.objects.composed_query], as the rows its iterator gives *)
  composed_query : Table → Query → SearchQuery → OrderBy → list (Row Value);
  (** truth values of the two expressions, as [any] tests them *)
  Query_truthy : Query → bool;
  SearchQuery_truthy : SearchQuery → bool;
}.

(** [QueryDict.urlencode] and [csv.writer(Echo(), dialect=csv.excel).writerow]. *)
Class Encoders `{Models} := {
  urlencode : gmap string (list string) → string;
  writerow : csv_row Value → string;
}.

(** Modelled from the spec: the URL configuration is not part of the sources;
    the route named [core:dataset-table-detail] is
    [/dataset/<slug>/<tablename>]. *)
Definition reverse_dataset_table_detail (slug tablename : string) : string :=
  ("/dataset/" +:+ slug +:+ "/" +:+ tablename)%string.

(** ** [dataset_detail] *)

(** The double quote character of the [Content-Disposition] header. *)
Definition dquote : string :=
  String (Ascii.Ascii false true false false false true false false) EmptyString.

Section Views.
Context `{Python, Settings, Encoders}.

(** [Paginator(object_list, per_page)] and the page [get_page] is asked for. *)
Record Paginator := {
  object_list : list (Row Value);
  per_page : Z;
}.

Inductive Page :=
| get_page (paginator : Paginator) (number : Z).

(** The template contexts of the view. *)
Record DetailContext := {
  ctx_data : Page;
  ctx_dataset : Dataset;
  ctx_fields : list Field.t;
  ctx_max_export_rows : Z;
  ctx_query_dict : gmap string (list string);
  ctx_querystring : string;
  ctx_slug : string;
  ctx_table : Table;
  ctx_total_count : Z;
  ctx_version : option Version;
}.

Inductive TemplateContext :=
| ctx_message (message : string)
| ctx_csv_without_filters (html_code_snippet download_url : string)
| ctx_4xx (message title_4xx : string)
| ctx_detail (context : DetailContext).

Inductive HttpResponse :=
| render (template_name : string) (context : TemplateContext) (status : Z)
| redirect (to : string)
| StreamingHttpResponse (streaming_content : list string * option PyExn)
    (content_type content_disposition encoding : string).

(** Calls that leave a trace outside the response. *)
Inductive Effect :=
| log_blocked_request (request : HttpRequest) (status : Z).

(** Control flow of the view: a statement goes on with a value, returns a
    response, or raises; the effects made so far are kept in order. *)
Inductive Step (A : Type) :=
| Continue (a : A)
| Return (response : HttpResponse)
| Raise (e : PyExn).
Global Arguments Continue {A} a.
Global Arguments Return {A} response.
Global Arguments Raise {A} e.

Record Flow (A : Type) := mkFlow {
  effects : list Effect;
  step : Step A;
}.
Global Arguments mkFlow {A} effects step.
Global Arguments effects {A} f.
Global Arguments step {A} f.

Definition continue {A} (a : A) : Flow A := mkFlow [] (Continue a).
Definition return_ {A} (response : HttpResponse) : Flow A := mkFlow [] (Return response).
Definition raise {A} (e : PyExn) : Flow A := mkFlow [] (Raise e).
Definition perform (e : Effect) : Flow unit := mkFlow [e] (Continue ()).

Definition flow_bind {A B} (k : A → Flow B) (m : Flow A) : Flow B :=
  match step m with
  | Continue a => mkFlow (effects m ++ effects (k a)) (step (k a))
  | Return response => mkFlow (effects m) (Return response)
  | Raise e => mkFlow (effects m) (Raise e)
  end.

Global Instance Flow_bind : MBind Flow := @flow_bind.

(** [values[0]] *)
Definition getitem0 (values : list string) : Flow string :=
  match values with
  | [] => raise IndexError
  | value :: _ => continue value
  end.

(** Lines 100-104. *)
Definition find_dataset (slug : string) : Flow Dataset :=
  match Dataset_objects_get slug with
  | Some dataset => continue dataset
  | None => return_ (render "404.html" (ctx_message "Dataset does not exist") 404)
  end.

(** Lines 110-122.  A model instance is truthy, so [if hidden_table:] holds
    whenever the second lookup returns. *)
Definition find_table (request : HttpRequest) (dataset : Dataset) (tablename : string)
  : Flow Table :=
  let allow_hidden := user_is_superuser request in
  match get_table dataset tablename allow_hidden with
  | Some table => continue table
  | None =>
      let context := ctx_message "Table does not exist" in
      _ ← match get_table dataset tablename true with
          | Some hidden_table => perform (log_blocked_request request 404)
          | None => continue ()
          end;
      return_ (render "404.html" context 404)
  end.

(** The values lines 124-138 leave behind. *)
Record Params := {
  page : Z;
  items_per_page : Z;
  download_csv : bool;
  querystring : gmap string (list string);
}.

(** Lines 124-138. *)
Definition read_params (request : HttpRequest) : Flow Params :=
  let querystring := GET request in
  let '(page_values, querystring) := QueryDict_pop "page" ["1"] querystring in
  page_value ← getitem0 page_values;
  let page_number := str_or (strip page_value) "1" in
  let '(items_values, querystring) :=
    QueryDict_pop "items" [str ROWS_PER_PAGE] querystring in
  items_value ← getitem0 items_values;
  let items_per_page := str_or (strip items_value) (str ROWS_PER_PAGE) in
  let '(format_values, querystring) := QueryDict_pop "format" [""] querystring in
  let download_csv := bool_decide (format_values = ["csv"]) in
  page ← match int page_number with
         | Some page => continue page
         | None => return_ (render "404.html" (ctx_message "Invalid page number.") 404)
         end;
  items_per_page ← match int items_per_page with
         | Some items_per_page => continue items_per_page
         | None => return_ (render "404.html" (ctx_message "Invalid items per page.") 404)
         end;
  let items_per_page := Z.min items_per_page 1000 in
  continue {| page := page; items_per_page := items_per_page;
              download_csv := download_csv; querystring := querystring |}.

(** [all_data.count()] *)
Definition count (all_data : list (Row Value)) : Z := Z.of_nat (List.length all_data).

(** Lines 148-149. *)
Definition user_agent_of (request : HttpRequest) : string :=
  default "" (headers request !! "User-Agent").

Definition block_agent_of (user_agent : string) : bool :=
  existsb (λ agent, str_in (lower agent) (lower user_agent)) BLOCKED_AGENTS.

(** Lines 154-158. *)
Definition csv_without_filters_page (dataset : Dataset) : HttpResponse :=
  let context :=
    ctx_csv_without_filters "core/400-csv-without-filters.html" (files_url dataset) in
  render "4xx.html" context 400.

(** Lines 161-162. *)
Definition max_rows_page : HttpResponse :=
  let context := ctx_4xx "Max rows exceeded." "Oops! Ocorreu um erro:" in
  render "4xx.html" context 400.

(** Lines 164-173. *)
Definition csv_response (slug : string) (all_data : list (Row Value))
    (fields : list Field.t) : HttpResponse :=
  let filename := (slug +:+ "-" +:+ uuid4_hex +:+ ".csv")%string in
  let csv_rows := queryset_to_csv obfuscate all_data fields in
  StreamingHttpResponse
    (writerow <$> csv_rows.1, csv_rows.2)
    "text/csv;charset=UTF-8"
    ("attachment; filename=" +:+ dquote +:+ filename +:+ dquote)%string
    "UTF-8".

(** Lines 175-195. *)
Definition detail_page (slug : string) (dataset : Dataset) (table : Table)
    (version : option Version) (fields : list Field.t) (all_data : list (Row Value))
    (params : Params) : HttpResponse :=
  let paginator :=
    {| object_list := all_data; per_page := items_per_page params |} in
  let data := get_page paginator (page params) in
  let querystring := QueryDict_drop_empty (querystring params) in
  let context := {|
    ctx_data := data;
    ctx_dataset := dataset;
    ctx_fields := fields;
    ctx_max_export_rows := CSV_EXPORT_MAX_ROWS;
    ctx_query_dict := querystring;
    ctx_querystring := urlencode querystring;
    ctx_slug := slug;
    ctx_table := table;
    ctx_total_count := count all_data;
    ctx_version := version;
  |} in
  render "core/dataset-detail.html" (ctx_detail context) 200.

(** Lines 140-195. *)
Definition respond (request : HttpRequest) (slug : string) (dataset : Dataset)
    (table : Table) (params : Params) : Flow Empty_set :=
  let version := version_first dataset in
  let fields := Table_fields table in
  let '(query, search_query, order_by) := parse_querystring table (querystring params) in
  let all_data := composed_query table query search_query order_by in
  if download_csv params then
    let user_agent := user_agent_of request in
    let block_agent := block_agent_of user_agent in
    if negb (Query_truthy query || SearchQuery_truthy search_query)
       || negb (str_truthy user_agent) || block_agent
    then return_ (csv_without_filters_page dataset)
    else if count all_data >? CSV_EXPORT_MAX_ROWS then return_ max_rows_page
    else return_ (csv_response slug all_data fields)
  else
    return_ (detail_page slug dataset table version fields all_data params).

Definition dataset_detail (request : HttpRequest) (slug tablename : string)
  : Flow Empty_set :=
  dataset ← find_dataset slug;
  if negb (str_truthy tablename) then
    let tablename := Table_name (get_default_table dataset) in
    return_ (redirect (reverse_dataset_table_detail slug tablename))
  else
    table ← find_table request dataset tablename;
    params ← read_params request;
    respond request slug dataset table params.
End Views.

(** ** The terms the properties are stated in *)

Section CsvTerms.
Context {Value : Type} (obfuscate : Value → Value).

(** The fields that get a column, and what a row shows for one of them. *)
Definition visible (fields : list Field.t) : list Field.t :=
  filter (λ field, skipped field = false) fields.

Definition shown (row : Row Value) (field : Field.t) : Value :=
  if Field.obfuscate field then obfuscate (row (Field.name field))
  else row (Field.name field).

(** The entry a field adds to [row_data], and the keys it leaves. *)
Definition column (row : Row Value) (field : Field.t) : string * Value :=
  (Field.name field, shown row field).

Definition keys_step (ks : list string) (field : Field.t) : list string :=
  if skipped field then ks
  else if bool_decide (Field.name field ∈ ks) then ks else ks ++ [Field.name field].

(** The CSV invariant, read for any field list: a header and one line per
    row come out; no column bears the name of the search index or of a field
    that is not shown; an obfuscated field has a column, holding the
    transformed value; the header is the key order of every row's mapping and
    the lines follow it. *)
Definition csv_invariant (data : list (Row Value)) (fields : list Field.t) : Prop :=
  ∃ (header : list string) (lines : list (list Value)),
    queryset_to_csv obfuscate data fields
      = (header_row header :: (data_row <$> lines), None)
    ∧ List.length lines = List.length data
    ∧ ("search_data" ∉ header)
    ∧ (∀ field, field ∈ fields → Field.show_on_frontend field = false →
         Field.name field ∉ header)
    ∧ (∀ i row values field,
         data !! i = Some row → lines !! i = Some values →
         field ∈ fields → skipped field = false → Field.obfuscate field = true →
         ∃ j, header !! j = Some (Field.name field)
              ∧ values !! j = Some (obfuscate (row (Field.name field))))
    ∧ (∀ i row values,
         data !! i = Some row → lines !! i = Some values →
         header = PyDict.keys (build_row_data obfuscate fields row)
         ∧ PyDict.getitems (build_row_data obfuscate fields row) header = inr values).
End CsvTerms.

(** The values the query string gives for a key, in order. *)
Definition values_of (key : string) (pairs : list (string * string)) : list string :=
  (filter (λ kv, kv.1 = key) pairs).*2.

(** A parameter as the client sent it: its first value, if it has one. *)
Definition param (key : string) (request : HttpRequest) : option string :=
  head (values_of key (query_pairs request)).

Section Terms.
Context `{Python, Settings, Encoders}.

(** The strings lines 125 and 126 hand to [int]. *)
Definition page_number (request : HttpRequest) : string :=
  str_or (strip (default "1" (param "page" request))) "1".

Definition items_number (request : HttpRequest) : string :=
  str_or (strip (default (str ROWS_PER_PAGE) (param "items" request)))
         (str ROWS_PER_PAGE).

(** The parameters left for [parse_querystring]. *)
Definition filter_params (request : HttpRequest) : gmap string (list string) :=
  delete "format" (delete "items" (delete "page" (GET request))).

(** The dataset exists and the named table resolves for the caller. *)
Definition found (request : HttpRequest) (slug tablename : string)
    (dataset : Dataset) (table : Table) : Prop :=
  Dataset_objects_get slug = Some dataset
  ∧ tablename ≠ ""
  ∧ get_table dataset tablename (user_is_superuser request) = Some table.

(** Both numbers convert. *)
Definition numbers (request : HttpRequest) (p n : Z) : Prop :=
  int (page_number request) = Some p ∧ int (items_number request) = Some n.

(** What [read_params] leaves when both numbers convert. *)
Definition params_of (request : HttpRequest) (p n : Z) : Params :=
  {| page := p;
     items_per_page := Z.min n 1000;
     download_csv := bool_decide (values_of "format" (query_pairs request) = ["csv"]);
     querystring := filter_params request |}.

(** Kinds of outcome. *)
Definition is_page (status : Z) (r : Flow Empty_set) : Prop :=
  ∃ template_name context, step r = Return (render template_name context status).

Definition streams (r : Flow Empty_set) : Prop :=
  ∃ content content_type content_disposition encoding,
    step r = Return (StreamingHttpResponse content content_type content_disposition
                                             encoding).

(** The HTTP status of the outcome: [redirect] answers 302 and a streaming
    response 200. *)
Definition status_code (response : HttpResponse) : Z :=
  match response with
  | render _ _ status => status
  | redirect _ => 302
  | StreamingHttpResponse _ _ _ _ => 200
  end.

Definition status_of (r : Flow Empty_set) : option Z :=
  match step r with
  | Return response => Some (status_code response)
  | _ => None
  end.

Definition export_path (r : Flow Empty_set) : Prop :=
  (∃ context status, step r = Return (render "4xx.html" context status)) ∨ streams r.

Definition paginator_of (r : Flow Empty_set) : option Paginator :=
  match step r with
  | Return (render _ (ctx_detail context) _) =>
      let 'get_page paginator _ := ctx_data context in Some paginator
  | _ => None
  end.

(** The user agent holds one of the blocked tokens, whatever the case. *)
Definition blocked_agent (user_agent : string) : Prop :=
  ∃ agent, agent ∈ BLOCKED_AGENTS ∧ str_in (lower agent) (lower user_agent) = true.

(** An export without filter or search gets the 400 page, read for any
    request with [format=csv] on an existing dataset and a visible table. *)
Definition export_needs_filter (request : HttpRequest) (slug tablename : string)
  : Prop :=
  ∀ dataset table query search_query order_by,
    found request slug tablename dataset table →
    values_of "format" (query_pairs request) = ["csv"] →
    parse_querystring table (filter_params request) = (query, search_query, order_by) →
    Query_truthy query = false →
    SearchQuery_truthy search_query = false →
    is_page 400 (dataset_detail request slug tablename)
    ∧ ¬ streams (dataset_detail request slug tablename).

(** An export with no or a blocked user agent gets the 400 page, read for
    any request with [format=csv] on an existing dataset and a visible table. *)
Definition export_needs_agent (request : HttpRequest) (slug tablename : string)
  : Prop :=
  ∀ dataset table,
    found request slug tablename dataset table →
    values_of "format" (query_pairs request) = ["csv"] →
    user_agent_of request = "" ∨ blocked_agent (user_agent_of request) →
    is_page 400 (dataset_detail request slug tablename)
    ∧ ¬ streams (dataset_detail request slug tablename).

(** A [page] or [items] parameter that is no integer gets the 404 page, read
    for the parameter as sent. *)
Definition number_must_parse (request : HttpRequest) (slug tablename : string)
  : Prop :=
  ∀ dataset table value,
    found request slug tablename dataset table →
    param "page" request = Some value ∨ param "items" request = Some value →
    int value = None →
    ∃ message,
      (message = "Invalid page number." ∨ message = "Invalid items per page.")
      ∧ step (dataset_detail request slug tablename)
        = Return (render "404.html" (ctx_message message) 404).
End Terms.


(** ** The other views: what they take from elsewhere *)

(** [request.user], as [contact] reads it. *)
Record User := {
  is_anonymous : bool;
  first_name : string;
  username : string;
  email : string;
}.

(** The request attributes [contact] reads; [user] is [None] when
    [request.user] is falsy. *)
Record FormRequest := {
  method : string;
  form_query_pairs : list (string * string);
  POST : gmap string (list string);
  user : option User;
}.

(** [form.cleaned_data] of a valid [ContactForm]. *)
Record ContactData := {
  data_name : string;
  data_email : string;
  data_message : string;
}.

(** [core.forms], the dataset attributes and queries of [core.models], the
    database's matching and random order, the settings and the routes the
    other views use. *)
Class Site `{Models} := {
  File : Type;
  DEFAULT_FROM_EMAIL : string;
  (** [reverse("core:contact")] *)
  reverse_contact : string;
  (** [ContactForm(data=...).is_valid()] with its [cleaned_data]; [None] when
      the form is not valid *)
  ContactForm_clean : gmap string (list string) → option ContactData;
  (** [DatasetSearchForm(...).is_valid()] with [cleaned_data["search"]] *)
  DatasetSearchForm_clean : gmap string (list string) → option string;
  (** [value ILIKE %term%], the test behind [__icontains] *)
  icontains : string → string → bool;
  (** the rows of [Dataset.objects] *)
  Dataset_objects_all : list Dataset;
  Dataset_show : Dataset → bool;
  Dataset_name : Dataset → string;
  Dataset_description : Dataset → string;
  (** the order [order_by("?")] gives to a query's rows in this call *)
  random_order : list Dataset → list Dataset;
  (** [dataset.all_files]; [None] is [ObjectDoesNotExist] *)
  all_files : Dataset → option (list File);
  (** [dataset.get_last_version().download_url] *)
  last_version_download_url : Dataset → string;
  (** [dataset.tables] and [t.collect_date], dates as day numbers *)
  Dataset_tables : Dataset → list Table;
  collect_date : Table → Z;
}.

(** [s.split(sep)] for a separator of one character: every occurrence cuts,
    so the empty string gives one empty piece. *)
Fixpoint str_split (sep : ascii) (s : string) : list string :=
  match s with
  | EmptyString => [EmptyString]
  | String a s' =>
      if Ascii.eqb a sep then EmptyString :: str_split sep s'
      else
        match str_split sep s' with
        | piece :: pieces => String a piece :: pieces
        | [] => [String a EmptyString]
        end
  end.

(** [sep.join(pieces)] *)
Fixpoint str_join (sep : string) (pieces : list string) : string :=
  match pieces with
  | [] => EmptyString
  | [piece] => piece
  | piece :: pieces' => (piece +:+ sep +:+ str_join sep pieces')%string
  end.

(** [max(values)]; [None] is the [ValueError] of an empty list. *)
Definition py_max (values : list Z) : option Z :=
  match values with
  | [] => None
  | value :: values' => Some (foldl Z.max value values')
  end.

(** [q.get(key, default)]: the last value of the key. *)
Definition QueryDict_get (key default_ : string) (q : gmap string (list string))
  : string :=
  match q !! key with
  | Some values => default default_ (last values)
  | None => default_
  end.

(** [django.db.models.Q] over datasets, as [dataset_list] builds it. *)
Inductive Q :=
| Q_show (value : bool)
| Q_description_icontains (term : string)
| Q_name_icontains (term : string)
| Q_and (q1 q2 : Q)
| Q_or (q1 q2 : Q).

Module Site.
Section SiteViews.
Context `{Python, Settings, Encoders, !Site}.

(** The row of a dataset satisfies the condition. *)
Fixpoint Q_holds (q : Q) (dataset : Dataset) : bool :=
  match q with
  | Q_show value => bool_decide (Dataset_show dataset = value)
  | Q_description_icontains term => icontains (Dataset_description dataset) term
  | Q_name_icontains term => icontains (Dataset_name dataset) term
  | Q_and q1 q2 => Q_holds q1 dataset && Q_holds q2 dataset
  | Q_or q1 q2 => Q_holds q1 dataset || Q_holds q2 dataset
  end.

(** [Dataset.objects.filter(q).order_by(field)], not yet evaluated. *)
Record DatasetQuery := {
  filter_q : Q;
  order_by : string;
}.

(** [django.core.mail.EmailMessage] *)
Record EmailMessage := {
  subject : string;
  body : string;
  from_email : string;
  to : list string;
  reply_to : list string;
}.

(** What [ContactForm(data=...)] is bound to: the dict built for a [GET], or
    [request.POST]. *)
Inductive ContactForm :=
| ContactForm_of_dict (data : gmap string string)
| ContactForm_of_POST (data : gmap string (list string)).

Inductive TemplateContext :=
| ctx_empty
| ctx_message (message : string)
| ctx_4xx (message title_4xx : string)
| ctx_contact (form : ContactForm) (sent : bool)
| ctx_home (datasets : list Dataset)
| ctx_dataset_list (datasets : DatasetQuery) (form : gmap string (list string))
| ctx_files (dataset : Dataset) (capture_date : Z) (file_list : list File).

Inductive HttpResponse :=
| render (template_name : string) (context : TemplateContext) (status : Z)
| redirect (to : string).

(** Exceptions these views let out. *)
Inductive Exn :=
| Http404
| ValueError.

(** Lines 25-54; the result is the mail sent and the response. *)
Definition contact (request : FormRequest) : list EmailMessage * HttpResponse :=
  let sent :=
    bool_decide
      (lower (QueryDict_get "sent" "" (QueryDict_of (form_query_pairs request)))
       = "true") in
  if bool_decide (method request = "GET") then
    let data : gmap string string := ∅ in
    let data :=
      match user request with
      | Some user =>
          if negb (is_anonymous user) then
            let data := <["name" := str_or (first_name user) (username user)]> data in
            <["email" := email user]> data
          else data
      | None => data
      end in
    let form := ContactForm_of_dict data in
    ([], render "core/contact.html" (ctx_contact form sent) 200)
  else if bool_decide (method request = "POST") then
    let form := ContactForm_of_POST (POST request) in
    match ContactForm_clean (POST request) with
    | Some data =>
        let email := {|
          subject := ("Contato no Brasil.IO: " +:+ data_name data)%string;
          body := data_message data;
          from_email :=
            (data_name data +:+ " (via Brasil.IO) <" +:+ DEFAULT_FROM_EMAIL +:+ ">")%string;
          to := [DEFAULT_FROM_EMAIL];
          reply_to := [(data_name data +:+ " <" +:+ data_email data +:+ ">")%string];
        |} in
        ([email], redirect (reverse_contact +:+ "?sent=true")%string)
    | None => ([], render "core/contact.html" (ctx_contact form sent) 200)
    end
  else
    let context := ctx_4xx "Invalid HTTP method." "Oops! Ocorreu um erro:" in
    ([], render "4xx.html" context 405).

(** Lines 83-85. *)
Definition home : HttpResponse :=
  let datasets :=
    take 6 (random_order (List.filter (λ d, bool_decide (Dataset_show d = true))
                            Dataset_objects_all)) in
  render "core/home.html" (ctx_home datasets) 200.

(** Line 94, one turn of [for term in search_str.split(" ")]. *)
Definition add_term (q : Q) (term : string) : Q :=
  Q_and q (Q_or (Q_description_icontains term) (Q_name_icontains term)).

(** Lines 90-94. *)
Definition search_q (GET : gmap string (list string)) : Q :=
  let q := Q_show true in
  match DatasetSearchForm_clean GET with
  | Some search_str => foldl add_term q (str_split " " search_str)
  | None => q
  end.

(** Lines 88-96. *)
Definition dataset_list (request : HttpRequest) : HttpResponse :=
  let form := GET request in
  let q := search_q (GET request) in
  let context := ctx_dataset_list {| filter_q := q; order_by := "name" |} form in
  render "core/dataset-list.html" context 200.

(** The message of line 225. *)
Definition no_files_message (slug : string) : string :=
  ("<p>Ainda não cadastramos nenhum arquivo para download no dataset " +:+ slug
   +:+ ".</p><p>Estamos trabalhando para os dados estarem disponíveis em breve.</p>"
   +:+ "<p>Acompanhe o nosso <a href='https://t.me/brasil_io'>grupo no Telegram</a>"
   +:+ " para manter-se atualizada.</p>")%string.

(** Lines 216-234; [get_object_or_404] raises [Http404]. *)
Definition dataset_files_detail (slug : string) : Exn + HttpResponse :=
  match Dataset_objects_get slug with
  | None => inl Http404
  | Some dataset =>
      match all_files dataset with
      | None => inr (redirect (last_version_download_url dataset))
      | Some all_files =>
          match all_files with
          | [] => inr (render "404.html" (ctx_message (no_files_message slug)) 200)
          | _ :: _ =>
              match py_max (collect_date <$> Dataset_tables dataset) with
              | None => inl ValueError
              | Some capture_date =>
                  inr (render "core/dataset_files_list.html"
                         (ctx_files dataset capture_date all_files) 200)
              end
          end
      end
  end.

(** The rows a dataset query gives, before ordering. *)
Definition rows_of (query : DatasetQuery) : list Dataset :=
  List.filter (Q_holds (filter_q query)) Dataset_objects_all.
End SiteViews.
End Site.

(** ** A small catalogue, for evaluating the views on concrete requests *)

Module Sample.
(** The ASCII part of the builtins: whitespace is the six ASCII blanks,
    integers are an optional sign and decimal digits (digit separators are
    not covered), and lower-casing touches [A]-[Z] only. *)
Fixpoint lstrip (s : string) : string :=
  match s with
  | String a s' => if Ascii.is_space a then lstrip s' else s
  | EmptyString => EmptyString
  end.

Definition ascii_strip (s : string) : string :=
  String.rev (lstrip (String.rev (lstrip s))).

Fixpoint digits (acc : Z) (s : string) : option Z :=
  match s with
  | EmptyString => Some acc
  | String a s' =>
      match Ascii.is_nat a with
      | Some d => digits (10 * acc + Z.of_nat d) s'
      | None => None
      end
  end.

Definition unsigned (s : string) : option Z :=
  if str_truthy s then digits 0 s else None.

Definition ascii_int (s : string) : option Z :=
  match ascii_strip s with
  | String "-"%char s' => Z.opp <$> unsigned s'
  | String "+"%char s' => unsigned s'
  | s' => unsigned s'
  end.

Definition lower_ascii (a : ascii) : ascii :=
  let n := Ascii.nat_of_ascii a in
  if ((65 <=? n) && (n <=? 90))%nat then Ascii.ascii_of_nat (n + 32) else a.

Fixpoint ascii_lower (s : string) : string :=
  match s with
  | EmptyString => EmptyString
  | String a s' => String (lower_ascii a) (ascii_lower s')
  end.

Fixpoint digits_of_nat (fuel n : nat) (acc : string) : string :=
  match fuel with
  | O => acc
  | S fuel' =>
      let acc' := String (Ascii.ascii_of_nat (48 + n mod 10)) acc in
      if (n <? 10)%nat then acc' else digits_of_nat fuel' (n / 10) acc'
  end.

Definition decimal (n : Z) : string :=
  let d := digits_of_nat (S (Z.abs_nat n)) (Z.abs_nat n) EmptyString in
  if n <? 0 then String "-"%char d else d.

#[export] Instance python : Python := {|
  int := ascii_int;
  str := decimal;
  strip := ascii_strip;
  lower := ascii_lower;
  uuid4_hex := "9f1c2d3e4b5a49768897a6b5c4d3e2f1";
|}.

#[export] Instance settings : Settings := {|
  ROWS_PER_PAGE := 50;
  CSV_EXPORT_MAX_ROWS := 2;
  BLOCKED_AGENTS := ["curl"; "Wget"];
|}.

(** One dataset, [covid19], with the visible table [caso] and the hidden
    table [interno]. *)
Record table := {
  table_name : string;
  table_hidden : bool;
  table_fields : list Field.t;
  table_rows : list (list (string * string));
}.

Definition caso_fields : list Field.t :=
  [ Field.mk "city" true false;
    Field.mk "document" true true;
    Field.mk "notes" false false;
    Field.mk "search_data" true false ].

Definition person (city document : string) : list (string * string) :=
  [("city", city); ("document", document); ("notes", "n/a");
   ("search_data", (city +:+ " " +:+ document)%string)].

Definition caso : table := {|
  table_name := "caso";
  table_hidden := false;
  table_fields := caso_fields;
  table_rows :=
    [ person "SaoPaulo" "111"; person "SaoPaulo" "222"; person "SaoPaulo" "333";
      person "Recife" "444"; person "Recife" "555"; person "Natal" "666" ];
|}.

Definition interno : table := {|
  table_name := "interno";
  table_hidden := true;
  table_fields := [Field.mk "city" true false];
  table_rows := [];
|}.

Definition tables : list table := [caso; interno].

(** [getattr(row, name)] on a stored row. *)
Definition attr (stored : list (string * string)) : Row string :=
  λ name, default "" (PyDict.getitem stored name).

(** A filter keeps the rows whose attribute equals the last value given for
    the key; the key [search] is the free-text expression. *)
Definition matches (query : list (string * string)) (stored : list (string * string))
  : bool :=
  forallb (λ kv, bool_decide (attr stored kv.1 = kv.2)) query.

Definition searched (search_query : string) (stored : list (string * string)) : bool :=
  str_in search_query (attr stored "search_data").

Definition parse (q : gmap string (list string))
  : list (string * string) * string * unit :=
  (omap (λ kv, pair kv.1 <$> last kv.2) (map_to_list (delete "search" q)),
   default "" (q !! "search" ≫= last),
   ()).

#[export] Instance models : Models := {|
  Value := string;
  Dataset := string;
  Table := table;
  Version := Z;
  Query := list (string * string);
  SearchQuery := string;
  OrderBy := unit;
  obfuscate := λ _, "***";
  Dataset_objects_get slug :=
    if bool_decide (slug = "covid19") then Some slug else None;
  get_default_table _ := caso;
  get_table _ tablename allow_hidden :=
    List.find (λ t, bool_decide (table_name t = tablename)
                    && (allow_hidden || negb (table_hidden t))) tables;
  Table_name := table_name;
  Table_fields := table_fields;
  files_url slug := ("/dataset/" +:+ slug +:+ "/files")%string;
  version_first _ := Some 3;
  parse_querystring _ := parse;
  composed_query t query search_query _ :=
    attr <$> List.filter (λ r, matches query r && searched search_query r)
                            (table_rows t);
  Query_truthy query := bool_decide (query ≠ []);
  SearchQuery_truthy := str_truthy;
|}.

Definition crlf : string :=
  String (Ascii.ascii_of_nat 13) (String (Ascii.ascii_of_nat 10) EmptyString).

Definition join (sep : string) (cells : list string) : string :=
  match cells with
  | [] => EmptyString
  | c :: cs => foldl (λ acc c', (acc +:+ sep +:+ c')%string) c cs
  end.

#[export] Instance encoders : Encoders := {|
  urlencode q :=
    join "&" ((λ kv, (kv.1 +:+ "=" +:+ default "" (last kv.2))%string)
                <$> map_to_list q);
  writerow r :=
    match r with
    | header_row names => (join "," names +:+ crlf)%string
    | data_row values => (join "," values +:+ crlf)%string
    end;
|}.

Definition browser : gmap string string :=
  {[ "User-Agent" := "Mozilla/5.0 (X11; Linux x86_64)" ]}.

Definition request (pairs : list (string * string)) (hdrs : gmap string string)
  : HttpRequest :=
  {| query_pairs := pairs; headers := hdrs; user_is_superuser := false |}.
End Sample.

(** The rest of the sample site: three datasets, one of them not shown. *)
Module SampleSite.
Import Sample.

Definition last_value (key : string) (q : gmap string (list string)) : string :=
  QueryDict_get key "" q.

Definition clean_contact (q : gmap string (list string)) : option ContactData :=
  if str_truthy (last_value "name" q) && str_in "@" (last_value "email" q)
     && str_truthy (last_value "message" q)
  then Some {| data_name := last_value "name" q;
               data_email := last_value "email" q;
               data_message := last_value "message" q |}
  else None.

Definition describe (slug : string) : string :=
  if bool_decide (slug = "covid19") then "Boletins de casos e obitos por municipio"
  else if bool_decide (slug = "eleicoes") then "Candidaturas e bens declarados"
  else "Rascunho interno".

#[export] Instance site : Site := {|
  File := string;
  DEFAULT_FROM_EMAIL := "contato@brasil.io";
  reverse_contact := "/contato/";
  ContactForm_clean := clean_contact;
  DatasetSearchForm_clean q := Some (last_value "search" q);
  icontains value term := str_in (ascii_lower term) (ascii_lower value);
  Dataset_objects_all := ["rascunho"; "covid19"; "eleicoes"];
  Dataset_show slug := negb (bool_decide (slug = "rascunho"));
  Dataset_name slug := slug;
  Dataset_description := describe;
  random_order l := rev l;
  all_files slug :=
    if bool_decide (slug = "covid19") then Some ["caso.csv.gz"; "obito.csv.gz"]
    else None;
  last_version_download_url slug := ("https://data.brasil.io/dataset/" +:+ slug)%string;
  Dataset_tables _ := tables;
  collect_date t := if table_hidden t then 18400 else 18412;
|}.

Definition visitor : User :=
  {| is_anonymous := false; first_name := ""; username := "maria";
     email := "maria@example.org" |}.

Definition form_request (verb : string) (pairs : list (string * string))
    (posted : list (string * string)) : FormRequest :=
  {| method := verb; form_query_pairs := pairs; POST := QueryDict_of posted;
     user := Some visitor |}.
End SampleSite.

(** * Properties *)

(** ** [dict] *)

Module PyDictFacts.
Import PyDict.
Section Facts.
Context {V : Type}.
Implicit Types (d : PyDict.t V) (k : string) (v : V).

Lemma setitem_fresh d k v :
  k ∉ keys d → setitem d k v = d ++ [(k, v)].
Proof.
  induction d as [|[k' v'] d IH]; intros Hk; simpl; [done|].
  apply not_elem_of_cons in Hk as [Hne Hk].
  destruct (String.eqb_spec k' k) as [->|_]; [done|].
  by rewrite IH.
Qed.

Lemma keys_setitem d k v :
  keys (setitem d k v) = if bool_decide (k ∈ keys d) then keys d else keys d ++ [k].
Proof.
  induction d as [|[k' v'] d IH]; simpl; [done|].
  destruct (String.eqb_spec k' k) as [->|Hne]; simpl.
  - rewrite bool_decide_eq_true_2; [done|]. apply elem_of_cons; by left.
  - rewrite IH.
    destruct (bool_decide_reflect (k ∈ keys d)) as [Hin|Hin].
    + rewrite bool_decide_eq_true_2; [done|]. apply elem_of_cons; by right.
    + rewrite bool_decide_eq_false_2; [done|].
      intros [?|?]%elem_of_cons; congruence.
Qed.

Lemma getitem_setitem d k v k' :
  getitem (setitem d k v) k' = if String.eqb k k' then Some v else getitem d k'.
Proof.
  induction d as [|[k0 v0] d IH]; simpl; [done|].
  destruct (String.eqb_spec k0 k) as [->|Hne]; simpl.
  - by destruct (String.eqb k k').
  - rewrite IH. destruct (String.eqb_spec k0 k') as [<-|_]; [|done].
    by destruct (String.eqb_spec k k0) as [->|_].
Qed.

Lemma getitem_is_Some d k : k ∈ keys d → is_Some (getitem d k).
Proof.
  induction d as [|[k' v'] d IH]; simpl.
  - by intros ?%elem_of_nil.
  - intros Hk. destruct (String.eqb_spec k' k) as [->|Hne]; [by eexists|].
    apply elem_of_cons in Hk as [?|?]; [congruence|by apply IH].
Qed.

(** Subscripting with keys of the dict never raises. *)
Lemma getitems_is_inr d ks :
  ks ⊆ keys d → ∃ vs, getitems d ks = inr vs ∧ length vs = length ks.
Proof.
  induction ks as [|k ks IH]; intros Hsub; simpl; [by eexists|].
  destruct (getitem_is_Some d k) as [v ->]; [set_solver|].
  destruct IH as (vs & -> & Hlen); [set_solver|].
  eexists; split; [done|]. simpl. by rewrite Hlen.
Qed.

Lemma getitems_skip k v d ks :
  k ∉ ks → getitems ((k, v) :: d) ks = getitems d ks.
Proof.
  induction ks as [|k' ks IH]; intros Hk; simpl; [done|].
  apply not_elem_of_cons in Hk as [Hne Hk].
  destruct (String.eqb_spec k k') as [->|_]; [done|].
  by rewrite IH.
Qed.

(** With distinct keys, reading all keys in order gives the values in order. *)
Lemma getitems_keys d : NoDup (keys d) → getitems d (keys d) = inr d.*2.
Proof.
  induction d as [|[k v] d IH]; simpl; [done|].
  intros [Hk Hd]%NoDup_cons.
  rewrite String.eqb_refl, getitems_skip by done.
  by rewrite IH.
Qed.
End Facts.
End PyDictFacts.

(** ** The CSV encoder *)

Section CsvFacts.
Context {Value : Type} (obfuscate : Value → Value).
Implicit Types (row : Row Value) (field : Field.t) (fields : list Field.t).
Import PyDict PyDictFacts.

Lemma visible_cons field fields :
  visible (field :: fields)
  = if skipped field then visible fields else field :: visible fields.
Proof.
  unfold visible. destruct (skipped field) eqn:Hs.
  - rewrite filter_cons_False; [done|]. congruence.
  - by rewrite filter_cons_True.
Qed.

Lemma visible_spec field fields :
  field ∈ visible fields ↔ field ∈ fields ∧ skipped field = false.
Proof. unfold visible. rewrite list_elem_of_filter. tauto. Qed.

Lemma visible_not_search field fields :
  field ∈ visible fields →
  Field.show_on_frontend field = true ∧ Field.name field ≠ "search_data".
Proof.
  intros [_ Hs]%visible_spec. unfold skipped in Hs.
  apply orb_false_iff in Hs as [Hshow Hname].
  split; [by destruct (Field.show_on_frontend field)|].
  by apply String.eqb_neq.
Qed.

(** The keys of [row_data] are fixed by the field list alone. *)
Lemma keys_foldl row fields (d : PyDict.t Value) :
  keys (foldl (row_data_step obfuscate row) d fields) = foldl keys_step (keys d) fields.
Proof.
  revert d. induction fields as [|field fields IH]; intros d; simpl; [done|].
  rewrite IH. f_equal. unfold row_data_step, keys_step.
  destruct (skipped field); [done|]. by rewrite keys_setitem.
Qed.

Lemma keys_build_row_data row row' fields :
  keys (build_row_data obfuscate fields row) = keys (build_row_data obfuscate fields row').
Proof. unfold build_row_data. by rewrite !keys_foldl. Qed.

(** With distinct visible names, [row_data] is the visible fields in order. *)
Lemma foldl_row_data_step row fields (d : PyDict.t Value) :
  NoDup (keys d ++ (Field.name <$> visible fields)) →
  foldl (row_data_step obfuscate row) d fields
  = d ++ (column obfuscate row <$> visible fields).
Proof.
  revert d. induction fields as [|field fields IH]; intros d Hnd; simpl.
  - by rewrite app_nil_r.
  - rewrite visible_cons in *. unfold row_data_step at 2.
    destruct (skipped field); [by apply IH|].
    rewrite fmap_cons in *. apply NoDup_app in Hnd as (Hd & Hdisj & Hrest).
    rewrite setitem_fresh by (intros Hin; apply (Hdisj _ Hin); by left).
    rewrite IH.
    + by rewrite <- app_assoc.
    + unfold keys. rewrite fmap_app, <- app_assoc. simpl.
      apply NoDup_app. split_and!; [done| |done].
      intros k Hk Hin. by apply (Hdisj k).
Qed.

Lemma build_row_data_visible row fields :
  NoDup (Field.name <$> visible fields) →
  build_row_data obfuscate fields row = column obfuscate row <$> visible fields.
Proof. intros Hnd. unfold build_row_data. by rewrite foldl_row_data_step. Qed.

Lemma keys_columns row (fs : list Field.t) :
  keys (column obfuscate row <$> fs) = Field.name <$> fs.
Proof. unfold keys. rewrite <- list_fmap_compose. done. Qed.

Lemma values_columns row (fs : list Field.t) :
  (column obfuscate row <$> fs).*2 = shown obfuscate row <$> fs.
Proof. rewrite <- list_fmap_compose. done. Qed.

(** The generator never raises: every key of the header is in every row's
    mapping, whatever the field list. *)
Lemma csv_loop_header fields row0 (rows : list (Row Value)) :
  ∃ lines,
    csv_loop obfuscate fields
      (Some (keys (build_row_data obfuscate fields row0))) rows
    = (data_row <$> lines, None)
    ∧ length lines = length rows.
Proof.
  induction rows as [|row rows (lines & IH & Hlen)]; simpl.
  - by exists [].
  - destruct (getitems_is_inr (build_row_data obfuscate fields row)
                (keys (build_row_data obfuscate fields row0))) as (vs & -> & _).
    { by rewrite (keys_build_row_data row0 row). }
    rewrite IH. exists (vs :: lines). simpl. by rewrite Hlen.
Qed.

Lemma queryset_to_csv_never_raises (data : list (Row Value)) fields :
  (queryset_to_csv obfuscate data fields).2 = None.
Proof.
  unfold queryset_to_csv. destruct data as [|row rows]; simpl; [done|].
  destruct (getitems_is_inr (build_row_data obfuscate fields row)
              (keys (build_row_data obfuscate fields row))) as (vs & -> & _); [done|].
  destruct (csv_loop_header fields row rows) as (lines & -> & _). done.
Qed.

(** With distinct visible names, the exact output. *)
Lemma csv_loop_visible fields (rows : list (Row Value)) :
  NoDup (Field.name <$> visible fields) →
  csv_loop obfuscate fields (Some (Field.name <$> visible fields)) rows
  = (data_row <$> ((λ row, shown obfuscate row <$> visible fields) <$> rows), None).
Proof.
  intros Hnd. induction rows as [|row rows IH]; simpl; [done|].
  rewrite build_row_data_visible by done.
  rewrite <- (keys_columns row), getitems_keys by (by rewrite keys_columns).
  rewrite keys_columns, IH, values_columns. done.
Qed.

Lemma queryset_to_csv_visible (data : list (Row Value)) fields :
  data ≠ [] →
  NoDup (Field.name <$> visible fields) →
  queryset_to_csv obfuscate data fields
  = (header_row (Field.name <$> visible fields)
       :: (data_row <$> ((λ row, shown obfuscate row <$> visible fields) <$> data)),
     None).
Proof.
  intros Hne Hnd. destruct data as [|row rows]; [done|].
  unfold queryset_to_csv. simpl.
  rewrite build_row_data_visible by done.
  rewrite keys_columns.
  rewrite <- (keys_columns row) at 1.
  rewrite getitems_keys by (by rewrite keys_columns).
  rewrite csv_loop_visible, values_columns by done. done.
Qed.
(** For any field list, a key of [row_data] holds what the last visible
    field of that name shows. *)
Lemma getitem_foldl_row_data_step row fields (d : PyDict.t Value) k :
  getitem (foldl (row_data_step obfuscate row) d fields) k
  = match last (filter (λ field, Field.name field = k) (visible fields)) with
    | Some field => Some (shown obfuscate row field)
    | None => getitem d k
    end.
Proof.
  revert d. induction fields as [|field fields IH]; intros d; simpl; [done|].
  rewrite IH, visible_cons. unfold row_data_step.
  destruct (skipped field); [done|].
  destruct (decide (Field.name field = k)) as [Hk|Hk].
  - rewrite filter_cons_True by done.
    rewrite last_cons, getitem_setitem, Hk, String.eqb_refl.
    destruct (last _); [done|]. unfold shown. by rewrite Hk.
  - rewrite filter_cons_False by done.
    rewrite getitem_setitem. by apply String.eqb_neq in Hk as ->.
Qed.

Lemma visible_names_NoDup fields :
  NoDup (Field.name <$> fields) → NoDup (Field.name <$> visible fields).
Proof.
  induction fields as [|field fields IH]; [done|].
  rewrite fmap_cons, visible_cons. intros [Hnotin Hnd]%NoDup_cons.
  destruct (skipped field); [by apply IH|].
  rewrite fmap_cons. apply NoDup_cons. split; [|by apply IH].
  intros (g & Hname & [Hg _]%visible_spec)%list_elem_of_fmap.
  apply Hnotin, list_elem_of_fmap. by exists g.
Qed.

Lemma name_determines_field fields f g :
  NoDup (Field.name <$> fields) →
  f ∈ fields → g ∈ fields → Field.name f = Field.name g → f = g.
Proof.
  intros Hnd [i Hi]%list_elem_of_lookup [j Hj]%list_elem_of_lookup Hname.
  assert (i = j) as ->; [|congruence].
  apply (NoDup_lookup _ i j (Field.name f) Hnd); rewrite list_lookup_fmap.
  - by rewrite Hi.
  - by rewrite Hj, Hname.
Qed.

(** C1 (as amended): for a row source that is not empty and a field list
    whose names are pairwise distinct, the encoder yields a header and then
    one line per row; no column bears the name of the search index or of a
    field that is not shown; the value of every obfuscated field is in its
    column in transformed form; the header is the key order of the first
    row's mapping, and every line lists its values in that order. *)
Theorem csv_invariant_distinct_names (data : list (Row Value)) fields :
  data ≠ [] →
  NoDup (Field.name <$> fields) →
  csv_invariant obfuscate data fields.
Proof.
  intros Hne Hnd.
  pose proof (visible_names_NoDup fields Hnd) as Hvis.
  exists (Field.name <$> visible fields),
         ((λ row, shown obfuscate row <$> visible fields) <$> data).
  split_and!.
  - by apply queryset_to_csv_visible.
  - by rewrite length_fmap.
  - intros (g & Hname & Hg)%list_elem_of_fmap.
    by destruct (visible_not_search g fields Hg).
  - intros f Hf Hshow (g & Hname & Hg)%list_elem_of_fmap.
    pose proof Hg as [Hgin _]%visible_spec.
    assert (f = g) as -> by eauto using name_determines_field.
    destruct (visible_not_search g fields Hg). congruence.
  - intros i row values f Hrow Hline Hf Hskip Hobf.
    apply list_lookup_fmap_Some in Hline as (row' & -> & Hrow').
    assert (row' = row) as -> by (unfold Row in *; congruence).
    assert (f ∈ visible fields) as [j Hj]%list_elem_of_lookup
      by (by apply visible_spec).
    exists j. rewrite !list_lookup_fmap, Hj. simpl.
    unfold shown. by rewrite Hobf.
  - intros i row values Hrow Hline.
    apply list_lookup_fmap_Some in Hline as (row' & -> & Hrow').
    assert (row' = row) as -> by (unfold Row in *; congruence).
    rewrite build_row_data_visible by done.
    rewrite keys_columns. split; [done|].
    rewrite <- (keys_columns row), getitems_keys by (by rewrite keys_columns).
    by rewrite values_columns.
Qed.

(** A header is yielded as soon as there is one row, for any field list. *)
Lemma queryset_to_csv_nonempty row (rows : list (Row Value)) fields :
  ∃ lines,
    queryset_to_csv obfuscate (row :: rows) fields
    = (header_row (keys (build_row_data obfuscate fields row))
         :: (data_row <$> lines), None)
    ∧ length lines = S (length rows).
Proof.
  unfold queryset_to_csv. simpl.
  destruct (getitems_is_inr (build_row_data obfuscate fields row)
              (keys (build_row_data obfuscate fields row))) as (vs & -> & _); [done|].
  destruct (csv_loop_header fields row rows) as (lines & -> & Hlen).
  exists (vs :: lines). simpl. by rewrite Hlen.
Qed.
End CsvFacts.

(** ** [QueryDict] *)

Lemma values_of_cons key kv pairs :
  values_of key (kv :: pairs)
  = if bool_decide (kv.1 = key) then kv.2 :: values_of key pairs
    else values_of key pairs.
Proof.
  unfold values_of. case_bool_decide.
  - by rewrite filter_cons_True.
  - by rewrite filter_cons_False.
Qed.

Lemma QueryDict_appendlist_lookup q kv key :
  QueryDict_appendlist q kv !! key
  = if bool_decide (kv.1 = key) then Some (default [] (q !! key) ++ [kv.2])
    else q !! key.
Proof.
  unfold QueryDict_appendlist. case_bool_decide as Hk.
  - subst. by rewrite lookup_insert_eq.
  - by rewrite lookup_insert_ne.
Qed.

Lemma QueryDict_foldl_lookup pairs q key :
  foldl QueryDict_appendlist q pairs !! key
  = match q !! key, values_of key pairs with
    | Some ws, vs => Some (ws ++ vs)
    | None, [] => None
    | None, vs => Some vs
    end.
Proof.
  revert q. induction pairs as [|kv pairs IH]; intros q; simpl.
  - destruct (q !! key); by rewrite ?app_nil_r.
  - rewrite IH, QueryDict_appendlist_lookup, values_of_cons.
    case_bool_decide; [|done].
    destruct (q !! key); simpl; by rewrite <- ?app_assoc.
Qed.

(** A key is bound to the values the query string gives it, and is not bound
    when it gives none. *)
Lemma QueryDict_of_lookup pairs key :
  QueryDict_of pairs !! key
  = match values_of key pairs with
    | [] => None
    | vs => Some vs
    end.
Proof. unfold QueryDict_of. by rewrite QueryDict_foldl_lookup, lookup_empty. Qed.

Lemma QueryDict_of_default pairs key value :
  default [value] (QueryDict_of pairs !! key)
  = match values_of key pairs with
    | [] => [value]
    | vs => vs
    end.
Proof. rewrite QueryDict_of_lookup. by destruct (values_of key pairs). Qed.

(** ** The view *)

Section ViewFacts.
Context `{Python, Settings, Encoders}.
Implicit Types (request : HttpRequest) (slug tablename : string).
Implicit Types (dataset : Dataset) (table : Table) (p n : Z).

Lemma bind_continue {A B} (a : A) (k : A → Flow B) : continue a ≫= k = k a.
Proof. unfold mbind, Flow_bind, flow_bind. simpl. by destruct (k a). Qed.

Lemma bind_return {A B} response (k : A → Flow B) :
  return_ response ≫= k = return_ response.
Proof. reflexivity. Qed.

(** Line 125, first half: the first value of a key, or the default. *)
Lemma getitem0_pop request key value q :
  q !! key = GET request !! key →
  getitem0 (QueryDict_pop key [value] q).1 = continue (default value (param key request)).
Proof.
  intros Hq. unfold QueryDict_pop, param, GET in *. simpl.
  rewrite Hq, QueryDict_of_default.
  by destruct (values_of key (query_pairs request)).
Qed.

Lemma download_csv_values request :
  bool_decide (default [""] (GET request !! "format") = ["csv"])
  = bool_decide (values_of "format" (query_pairs request) = ["csv"]).
Proof.
  unfold GET. rewrite QueryDict_of_default. apply bool_decide_ext.
  destruct (values_of "format" (query_pairs request)); [|done].
  split; intros; discriminate.
Qed.

(** Lines 124-138 in one step: either number fails with its page, or the
    parameters are as [params_of] says; an [IndexError] never occurs. *)
Lemma read_params_eq request :
  read_params request
  = match int (page_number request) with
    | None => return_ (render "404.html" (ctx_message "Invalid page number.") 404)
    | Some p =>
        match int (items_number request) with
        | None => return_ (render "404.html" (ctx_message "Invalid items per page.") 404)
        | Some n => continue (params_of request p n)
        end
    end.
Proof.
  unfold read_params. cbn [QueryDict_pop].
  change (default ["1"] (GET request !! "page"))
    with (QueryDict_pop "page" ["1"] (GET request)).1.
  rewrite (getitem0_pop request), bind_continue by done.
  change (default [str ROWS_PER_PAGE] (delete "page" (GET request) !! "items"))
    with (QueryDict_pop "items" [str ROWS_PER_PAGE] (delete "page" (GET request))).1.
  rewrite (getitem0_pop request), bind_continue by (by rewrite lookup_delete_ne).
  rewrite !lookup_delete_ne by done. rewrite download_csv_values.
  fold (page_number request). fold (items_number request).
  destruct (int (page_number request)) as [p|]; [|done].
  rewrite bind_continue.
  destruct (int (items_number request)) as [n|]; [|done].
  by rewrite bind_continue.
Qed.
Lemma str_truthy_ne s : str_truthy s = true ↔ s ≠ "".
Proof. destruct s; simpl; split; intros; try done. Qed.

Lemma find_table_eq request dataset tablename :
  find_table request dataset tablename
  = match get_table dataset tablename (user_is_superuser request) with
    | Some table => continue table
    | None =>
        mkFlow (if get_table dataset tablename true is Some _
                then [log_blocked_request request 404] else [])
               (Return (render "404.html" (ctx_message "Table does not exist") 404))
    end.
Proof.
  unfold find_table.
  destruct (get_table dataset tablename (user_is_superuser request)); [done|].
  by destruct (get_table dataset tablename true).
Qed.

(** Past the dataset, table and number checks the view is [respond]. *)
Lemma dataset_detail_respond request slug tablename dataset table p n :
  found request slug tablename dataset table →
  numbers request p n →
  dataset_detail request slug tablename
  = respond request slug dataset table (params_of request p n).
Proof.
  intros (Hd & Hname & Ht) (Hp & Hn). unfold dataset_detail, find_dataset.
  rewrite Hd, bind_continue.
  apply str_truthy_ne in Hname as ->. simpl.
  rewrite find_table_eq, Ht, bind_continue.
  by rewrite read_params_eq, Hp, Hn, bind_continue.
Qed.

(** Every way through the view. *)
Lemma dataset_detail_cases request slug tablename :
  (Dataset_objects_get slug = None
   ∧ dataset_detail request slug tablename
     = return_ (render "404.html" (ctx_message "Dataset does not exist") 404))
  ∨ (∃ dataset,
      Dataset_objects_get slug = Some dataset ∧ tablename = ""
      ∧ dataset_detail request slug tablename
        = return_ (redirect (reverse_dataset_table_detail slug
                               (Table_name (get_default_table dataset)))))
  ∨ (∃ dataset,
      Dataset_objects_get slug = Some dataset ∧ tablename ≠ ""
      ∧ get_table dataset tablename (user_is_superuser request) = None
      ∧ dataset_detail request slug tablename
        = mkFlow (if get_table dataset tablename true is Some _
                  then [log_blocked_request request 404] else [])
                 (Return (render "404.html" (ctx_message "Table does not exist") 404)))
  ∨ (∃ dataset table,
      found request slug tablename dataset table
      ∧ int (page_number request) = None
      ∧ dataset_detail request slug tablename
        = return_ (render "404.html" (ctx_message "Invalid page number.") 404))
  ∨ (∃ dataset table p,
      found request slug tablename dataset table
      ∧ int (page_number request) = Some p
      ∧ int (items_number request) = None
      ∧ dataset_detail request slug tablename
        = return_ (render "404.html" (ctx_message "Invalid items per page.") 404))
  ∨ (∃ dataset table p n,
      found request slug tablename dataset table
      ∧ numbers request p n
      ∧ dataset_detail request slug tablename
        = respond request slug dataset table (params_of request p n)).
Proof.
  destruct (Dataset_objects_get slug) as [dataset|] eqn:Hd.
  2: { left. split; [done|]. unfold dataset_detail, find_dataset. by rewrite Hd. }
  right. destruct (decide (tablename = "")) as [->|Hname].
  { left. exists dataset. split_and!; [done..|].
    unfold dataset_detail, find_dataset. by rewrite Hd, bind_continue. }
  right.
  assert (dataset_detail request slug tablename
          = find_table request dataset tablename
            ≫= λ table, read_params request
            ≫= λ params, respond request slug dataset table params) as Hrun.
  { unfold dataset_detail, find_dataset. rewrite Hd, bind_continue.
    by apply str_truthy_ne in Hname as ->. }
  rewrite find_table_eq in Hrun.
  destruct (get_table dataset tablename (user_is_superuser request))
    as [table|] eqn:Ht.
  2: { left. exists dataset. split_and!; [done..|]. by rewrite Hrun. }
  right. rewrite bind_continue, read_params_eq in Hrun.
  destruct (int (page_number request)) as [p|] eqn:Hp.
  2: { left. exists dataset, table. by split_and!. }
  right. destruct (int (items_number request)) as [n|] eqn:Hn.
  2: { left. exists dataset, table, p. by split_and!. }
  right. exists dataset, table, p, n. rewrite bind_continue in Hrun.
  by split_and!.
Qed.

(** What [respond] returns, by the tests it makes. *)
Lemma respond_cases request slug dataset table params :
  ∃ query search_query order_by,
    parse_querystring table (querystring params) = (query, search_query, order_by)
    ∧ respond request slug dataset table params
      = let all_data := composed_query table query search_query order_by in
        return_
          (if download_csv params then
             if negb (Query_truthy query || SearchQuery_truthy search_query)
                || negb (str_truthy (user_agent_of request))
                || block_agent_of (user_agent_of request)
             then csv_without_filters_page dataset
             else if count all_data >? CSV_EXPORT_MAX_ROWS then max_rows_page
             else csv_response slug all_data (Table_fields table)
           else detail_page slug dataset table (version_first dataset)
                  (Table_fields table) all_data params).
Proof.
  unfold respond.
  destruct (parse_querystring table (querystring params))
    as [[query search_query] order_by].
  exists query, search_query, order_by. split; [done|]. simpl.
  repeat case_match; done.
Qed.

Lemma block_agent_of_true user_agent :
  block_agent_of user_agent = true ↔ blocked_agent user_agent.
Proof.
  unfold block_agent_of, blocked_agent. rewrite existsb_exists.
  split; intros (agent & ? & ?); exists agent; by rewrite ?list_elem_of_In in *.
Qed.

(** The view never lets an exception out. *)
Lemma dataset_detail_never_raises request slug tablename e :
  step (dataset_detail request slug tablename) ≠ Raise e.
Proof.
  destruct (dataset_detail_cases request slug tablename)
    as [[_ ->]|[(?&_&_&->)|[(?&_&_&_&->)|[(?&?&_&_&->)|[(?&?&?&_&_&_&->)|
        (dataset&table&p&n&_&_&->)]]]]]; try done.
  destruct (respond_cases request slug dataset table (params_of request p n))
    as (?&?&?&_&->). done.
Qed.
(** What a request with [format=csv] gets once the numbers convert. *)
Lemma export_response request slug tablename dataset table p n
    query search_query order_by :
  found request slug tablename dataset table →
  numbers request p n →
  values_of "format" (query_pairs request) = ["csv"] →
  parse_querystring table (filter_params request) = (query, search_query, order_by) →
  dataset_detail request slug tablename
  = let all_data := composed_query table query search_query order_by in
    return_
      (if negb (Query_truthy query || SearchQuery_truthy search_query)
          || negb (str_truthy (user_agent_of request))
          || block_agent_of (user_agent_of request)
       then csv_without_filters_page dataset
       else if count all_data >? CSV_EXPORT_MAX_ROWS then max_rows_page
       else csv_response slug all_data (Table_fields table)).
Proof.
  intros Hfound Hnum Hcsv Hparse.
  rewrite (dataset_detail_respond _ _ _ _ _ _ _ Hfound Hnum).
  destruct (respond_cases request slug dataset table (params_of request p n))
    as (q & sq & o & Hparse' & ->).
  simpl in Hparse'. rewrite Hparse in Hparse'. injection Hparse' as <- <- <-.
  simpl. by rewrite bool_decide_eq_true_2.
Qed.

(** What any other request gets once the numbers convert. *)
Lemma page_response request slug tablename dataset table p n
    query search_query order_by :
  found request slug tablename dataset table →
  numbers request p n →
  values_of "format" (query_pairs request) ≠ ["csv"] →
  parse_querystring table (filter_params request) = (query, search_query, order_by) →
  dataset_detail request slug tablename
  = return_ (detail_page slug dataset table (version_first dataset)
               (Table_fields table)
               (composed_query table query search_query order_by)
               (params_of request p n)).
Proof.
  intros Hfound Hnum Hcsv Hparse.
  rewrite (dataset_detail_respond _ _ _ _ _ _ _ Hfound Hnum).
  destruct (respond_cases request slug dataset table (params_of request p n))
    as (q & sq & o & Hparse' & ->).
  simpl in Hparse'. rewrite Hparse in Hparse'. injection Hparse' as <- <- <-.
  simpl. by rewrite bool_decide_eq_false_2.
Qed.

(** C2 (as amended): a request with [format=csv] on an existing dataset
    and a visible table, whose page and items numbers convert and whose
    parsed query string has neither filter nor search expression, gets the
    400 page, whatever the number of rows, and no CSV stream. *)
Theorem export_without_filter_rejected request slug tablename dataset table p n
    query search_query order_by :
  found request slug tablename dataset table →
  numbers request p n →
  values_of "format" (query_pairs request) = ["csv"] →
  parse_querystring table (filter_params request) = (query, search_query, order_by) →
  Query_truthy query = false →
  SearchQuery_truthy search_query = false →
  dataset_detail request slug tablename = return_ (csv_without_filters_page dataset)
  ∧ is_page 400 (dataset_detail request slug tablename)
  ∧ ¬ streams (dataset_detail request slug tablename).
Proof.
  intros Hfound Hnum Hcsv Hparse Hq Hs.
  rewrite (export_response _ _ _ _ _ _ _ _ _ _ Hfound Hnum Hcsv Hparse).
  rewrite Hq, Hs. simpl. split_and!; [done| |].
  - by eexists _, _.
  - by intros (?&?&?&?&?).
Qed.

(** C8 (as amended): a request with [format=csv] on an existing dataset
    and a visible table, whose page and items numbers convert and whose
    user agent is missing, empty, or holds a blocked token in any case, gets
    the 400 page and no CSV stream. *)
Theorem export_without_agent_rejected request slug tablename dataset table p n :
  found request slug tablename dataset table →
  numbers request p n →
  values_of "format" (query_pairs request) = ["csv"] →
  user_agent_of request = "" ∨ blocked_agent (user_agent_of request) →
  dataset_detail request slug tablename = return_ (csv_without_filters_page dataset)
  ∧ is_page 400 (dataset_detail request slug tablename)
  ∧ ¬ streams (dataset_detail request slug tablename).
Proof.
  intros Hfound Hnum Hcsv Hagent.
  destruct (parse_querystring table (filter_params request))
    as [[query search_query] order_by] eqn:Hparse.
  rewrite (export_response _ _ _ _ _ _ _ _ _ _ Hfound Hnum Hcsv Hparse).
  assert (negb (str_truthy (user_agent_of request))
          || block_agent_of (user_agent_of request) = true) as Hguard.
  { destruct Hagent as [->| ->%block_agent_of_true]; [done|].
    by rewrite orb_true_r. }
  rewrite <- orb_assoc, Hguard, orb_true_r. simpl. split_and!; [done| |].
  - by eexists _, _.
  - by intros (?&?&?&?&?).
Qed.

(** C3: a request with [format=csv] that passes the filter and the user
    agent guards gets a 400 page exactly when the count of its rows is above
    [CSV_EXPORT_MAX_ROWS]; up to the ceiling, and so at the ceiling, the CSV is
    streamed, and one above it the request is rejected. *)
Theorem export_ceiling request slug tablename dataset table p n
    query search_query order_by :
  found request slug tablename dataset table →
  numbers request p n →
  values_of "format" (query_pairs request) = ["csv"] →
  parse_querystring table (filter_params request) = (query, search_query, order_by) →
  Query_truthy query || SearchQuery_truthy search_query = true →
  user_agent_of request ≠ "" →
  ¬ blocked_agent (user_agent_of request) →
  let all_data := composed_query table query search_query order_by in
  let r := dataset_detail request slug tablename in
  (is_page 400 r ↔ CSV_EXPORT_MAX_ROWS < count all_data)
  ∧ (CSV_EXPORT_MAX_ROWS < count all_data → r = return_ max_rows_page)
  ∧ (count all_data ≤ CSV_EXPORT_MAX_ROWS →
       r = return_ (csv_response slug all_data (Table_fields table)))
  ∧ (count all_data = CSV_EXPORT_MAX_ROWS → streams r)
  ∧ (count all_data = CSV_EXPORT_MAX_ROWS + 1 → r = return_ max_rows_page).
Proof.
  intros Hfound Hnum Hcsv Hparse Hfilter Hagent Hblocked all_data r.
  assert (r = return_ (if count all_data >? CSV_EXPORT_MAX_ROWS then max_rows_page
                       else csv_response slug all_data (Table_fields table))) as Hr.
  { unfold r. rewrite (export_response _ _ _ _ _ _ _ _ _ _ Hfound Hnum Hcsv Hparse).
    rewrite Hfilter. apply str_truthy_ne in Hagent as ->.
    destruct (block_agent_of (user_agent_of request)) eqn:Hb; [|done].
    by apply block_agent_of_true in Hb. }
  clearbody r. subst r.
  destruct (Z.gtb_spec (count all_data) CSV_EXPORT_MAX_ROWS) as [Hgt|Hle].
  - split_and!; [|done|lia| lia|done].
    split; [done|]. intros _. by eexists _, _.
  - split_and!; [|lia|done| |lia].
    + split; [|lia]. intros (?&?&?); discriminate.
    + intros _. by eexists _, _, _, _.
Qed.
(** C4: when the items number converts to [n], the paginator is built
    with page size [min n 1000]: exactly 1000 for [n] above 1000, and [n]
    itself otherwise; and the paginator is built whenever the dataset and
    table are found, the page number converts and the request is no export. *)
Theorem page_size_clamped request slug tablename n :
  int (items_number request) = Some n →
  let r := dataset_detail request slug tablename in
  (∀ paginator, paginator_of r = Some paginator →
     per_page paginator = Z.min n 1000
     ∧ (1000 < n → per_page paginator = 1000)
     ∧ (n ≤ 1000 → per_page paginator = n))
  ∧ (∀ dataset table p,
       found request slug tablename dataset table →
       int (page_number request) = Some p →
       values_of "format" (query_pairs request) ≠ ["csv"] →
       ∃ paginator, paginator_of r = Some paginator ∧ per_page paginator = Z.min n 1000).
Proof.
  intros Hn r. split.
  - intros paginator Hpag.
    assert (per_page paginator = Z.min n 1000) as ->; [|lia].
    unfold paginator_of, r in Hpag.
    destruct (dataset_detail_cases request slug tablename)
      as [[_ Hr]|[(?&_&_&Hr)|[(?&_&_&_&Hr)|[(?&?&_&_&Hr)|[(?&?&?&_&_&Hn'&Hr)|
          (dataset&table&p&n'&_&[_ Hn']&Hr)]]]]];
      rewrite Hr in Hpag; simpl in Hpag; try discriminate.
    assert (n' = n) as -> by congruence.
    destruct (respond_cases request slug dataset table (params_of request p n))
      as (?&?&?&_&Hresp).
    rewrite Hresp in Hpag. simpl in Hpag. clear Hresp.
    case_bool_decide.
    + destruct (_ || _ || _); [discriminate|].
      destruct (_ >? _); discriminate.
    + simpl in Hpag. by injection Hpag as <-.
  - intros dataset table p Hfound Hp Hcsv.
    destruct (parse_querystring table (filter_params request))
      as [[query search_query] order_by] eqn:Hparse.
    unfold r.
    rewrite (page_response _ _ _ _ _ _ _ _ _ _ Hfound (conj Hp Hn) Hcsv Hparse).
    by eexists.
Qed.

(** C5 (as amended): on an existing dataset and a visible table, when the
    string handed to [int] for the page or for the items (the first value
    sent, stripped, or the default when the parameter is missing or blank)
    does not convert, the view returns the 404 page with the message of the
    first number that fails, makes no effect and raises nothing. *)
Theorem invalid_number_not_found request slug tablename dataset table :
  found request slug tablename dataset table →
  int (page_number request) = None ∨ int (items_number request) = None →
  ∃ message,
    dataset_detail request slug tablename
    = return_ (render "404.html" (ctx_message message) 404)
    ∧ message = (if int (page_number request) is Some _
                 then "Invalid items per page." else "Invalid page number.")
    ∧ (message = "Invalid page number." ∨ message = "Invalid items per page.").
Proof.
  intros (Hd & Hname & Ht) Hbad. eexists. split; [|split; [done|]].
  - unfold dataset_detail, find_dataset. rewrite Hd, bind_continue.
    apply str_truthy_ne in Hname as ->. simpl.
    rewrite find_table_eq, Ht, bind_continue, read_params_eq.
    destruct (int (page_number request)); [|done].
    destruct Hbad as [?| ->]; done.
  - destruct (int (page_number request)); auto.
Qed.

(** C6: when the dataset exists and the lookup of the named table for the
    caller fails, the view returns the 404 page; it calls
    [log_blocked_request(request, 404)] exactly when the lookup with hidden
    tables allowed finds the table, and when that lookup fails too nothing is
    logged and nothing is raised. *)
Theorem missing_table_not_found request slug tablename dataset :
  Dataset_objects_get slug = Some dataset →
  tablename ≠ "" →
  get_table dataset tablename (user_is_superuser request) = None →
  step (dataset_detail request slug tablename)
  = Return (render "404.html" (ctx_message "Table does not exist") 404)
  ∧ effects (dataset_detail request slug tablename)
    = (if get_table dataset tablename true is Some _
       then [log_blocked_request request 404] else [])
  ∧ (log_blocked_request request 404 ∈ effects (dataset_detail request slug tablename)
     ↔ is_Some (get_table dataset tablename true)).
Proof.
  intros Hd Hname Ht.
  assert (dataset_detail request slug tablename
          = mkFlow (if get_table dataset tablename true is Some _
                    then [log_blocked_request request 404] else [])
              (Return (render "404.html" (ctx_message "Table does not exist") 404)))
    as ->.
  { unfold dataset_detail, find_dataset. rewrite Hd, bind_continue.
    apply str_truthy_ne in Hname as ->. simpl.
    by rewrite find_table_eq, Ht. }
  simpl. split_and!; [done..|].
  destruct (get_table dataset tablename true).
  - split; [by eexists|]. intros _. apply list_elem_of_singleton. done.
  - split; [by intros ?%elem_of_nil|]. by intros [? ?].
Qed.

(** C7: with an existing dataset and no table name the view redirects to
    [/dataset/<slug>/<name of the default table>], renders nothing and makes
    no effect. *)
Theorem no_table_redirects request slug dataset :
  Dataset_objects_get slug = Some dataset →
  dataset_detail request slug ""
  = return_ (redirect ("/dataset/" +:+ slug +:+ "/"
                         +:+ Table_name (get_default_table dataset))%string)
  ∧ ¬ (∃ template_name context status,
         step (dataset_detail request slug "")
         = Return (render template_name context status)).
Proof.
  intros Hd.
  assert (dataset_detail request slug ""
          = return_ (redirect (reverse_dataset_table_detail slug
                                 (Table_name (get_default_table dataset))))) as ->.
  { unfold dataset_detail, find_dataset. by rewrite Hd, bind_continue. }
  split; [done|]. by intros (?&?&?&?).
Qed.

(** C9: the [download_csv] flag is set exactly when the values given for
    [format] are the one value [csv]; only then can the view answer on the
    export path, and once dataset, table and numbers are in order it answers
    on the export path when the flag is set and with the paginated page when
    it is not.  So neither a repeated [format=csv] nor [format=CSV] is an
    export. *)
Theorem export_iff_single_csv request slug tablename :
  let format_values := values_of "format" (query_pairs request) in
  let r := dataset_detail request slug tablename in
  (∀ params, step (read_params request) = Continue params →
     download_csv params = true ↔ format_values = ["csv"])
  ∧ (export_path r → format_values = ["csv"])
  ∧ (∀ dataset table p n,
       found request slug tablename dataset table →
       numbers request p n →
       (format_values = ["csv"] → export_path r)
       ∧ (format_values ≠ ["csv"] →
            ∃ context, step r = Return (render "core/dataset-detail.html"
                                          (ctx_detail context) 200)))
  ∧ (format_values = ["csv"; "csv"] ∨ format_values = ["CSV"] →
       ¬ export_path r).
Proof.
  intros format_values r.
  assert (export_path r → format_values = ["csv"]) as Honly.
  { unfold r, export_path, streams.
    destruct (dataset_detail_cases request slug tablename)
      as [[_ ->]|[(?&_&_&->)|[(?&_&_&_&->)|[(?&?&_&_&->)|[(?&?&?&_&_&_&->)|
          (dataset&table&p&n&_&_&->)]]]]];
      try (intros [(?&?&?)|(?&?&?&?&?)]; discriminate).
    destruct (respond_cases request slug dataset table (params_of request p n))
      as (?&?&?&_&->). simpl.
    case_bool_decide; [done|].
    intros [(?&?&?)|(?&?&?&?&?)]; discriminate. }
  split_and!; [| done | |].
  - intros params. rewrite read_params_eq.
    destruct (int (page_number request)); [|done].
    destruct (int (items_number request)); [|done].
    intros [= <-]. simpl. by rewrite bool_decide_eq_true.
  - intros dataset table p n Hfound Hnum.
    destruct (parse_querystring table (filter_params request))
      as [[query search_query] order_by] eqn:Hparse.
    split; intros Hcsv; unfold r.
    + rewrite (export_response _ _ _ _ _ _ _ _ _ _ Hfound Hnum Hcsv Hparse).
      unfold export_path, streams. simpl.
      repeat case_match; [left; by eexists _, _..|right; by eexists _, _, _, _].
    + rewrite (page_response _ _ _ _ _ _ _ _ _ _ Hfound Hnum Hcsv Hparse).
      by eexists.
  - intros Hvalues Hpath. apply Honly in Hpath.
    destruct Hvalues as [Hv|Hv]; rewrite Hv in Hpath; discriminate.
Qed.

(** C10: a row source without rows makes the encoder yield nothing, not
    even a header, so the body of the streaming response built from it is
    empty. *)
Theorem empty_source_empty_body slug fields :
  queryset_to_csv obfuscate [] fields = ([], None)
  ∧ ∃ content_type content_disposition encoding,
      csv_response slug [] fields
      = StreamingHttpResponse ([], None) content_type content_disposition encoding.
Proof. split; [reflexivity|]. by eexists _, _, _. Qed.

(** An export of no rows that passes every guard streams an empty body. *)
Lemma empty_export_body request slug tablename dataset table p n
    query search_query order_by :
  found request slug tablename dataset table →
  numbers request p n →
  values_of "format" (query_pairs request) = ["csv"] →
  parse_querystring table (filter_params request) = (query, search_query, order_by) →
  composed_query table query search_query order_by = [] →
  ∀ content content_type content_disposition encoding,
    step (dataset_detail request slug tablename)
    = Return (StreamingHttpResponse content content_type content_disposition encoding) →
    content = ([], None).
Proof.
  intros Hfound Hnum Hcsv Hparse Hempty content ct cd enc.
  rewrite (export_response _ _ _ _ _ _ _ _ _ _ Hfound Hnum Hcsv Hparse), Hempty.
  simpl. repeat case_match; intros [=]; by subst.
Qed.
End ViewFacts.

(** ** The properties on the sample catalogue *)

Module Checks.
Import Sample.

(** Requests used below. *)
Example parse_city_filter :
  parse_querystring caso
    (filter_params (request [("city", "Recife"); ("format", "csv")] browser))
  = ([("city", "Recife")], "", ()).
Proof. vm_compute. reflexivity. Qed.

(** The scenario of the specification: a filtered export from a browser,
    under the ceiling, streams the header [city,document] and masked values. *)
Example filtered_export_streams :
  step (dataset_detail (request [("city", "Recife"); ("format", "csv")] browser)
          "covid19" "caso")
  = Return (StreamingHttpResponse
              ([("city,document" +:+ crlf)%string; ("Recife,***" +:+ crlf)%string;
                ("Recife,***" +:+ crlf)%string], None)
              "text/csv;charset=UTF-8"
              ("attachment; filename=" +:+ dquote
                 +:+ "covid19-9f1c2d3e4b5a49768897a6b5c4d3e2f1.csv" +:+ dquote)%string
              "UTF-8").
Proof. vm_compute. reflexivity. Qed.

Lemma csv_invariant_distinct_names_witness :
  let data := attr <$> table_rows caso in
  data ≠ []
  ∧ NoDup (Field.name <$> caso_fields)
  ∧ csv_invariant (λ _ : string, "***") data caso_fields.
Proof.
  intros data.
  assert (data ≠ []) as Hne by (vm_compute; discriminate).
  assert (NoDup (Field.name <$> caso_fields)) as Hnd
    by (apply (bool_decide_unpack _); vm_compute; exact I).
  split_and!; [done..|].
  exact (csv_invariant_distinct_names (λ _ : string, "***") data caso_fields Hne Hnd).
Defined.

(** Two descriptors with one name: the second assignment to [row_data]
    replaces the obfuscated value by the raw one. *)
Lemma csv_invariant_fails_on_repeated_name :
  ¬ csv_invariant (λ _ : string, "***")
      [attr [("document", "111")]]
      [Field.mk "document" true true; Field.mk "document" true false].
Proof.
  intros (header & lines & Heq & _ & _ & _ & Hobf & _).
  vm_compute in Heq. injection Heq as <- Hlines.
  destruct lines as [|values [|? ?]]; simplify_eq/=.
  destruct (Hobf 0%nat (attr [("document", "111")]) _ (Field.mk "document" true true)
              eq_refl eq_refl) as (j & Hj & Hvalue).
  - apply elem_of_cons. by left.
  - done.
  - done.
  - destruct j as [|[|j]]; vm_compute in Hj, Hvalue; discriminate.
Qed.
Lemma found_caso pairs hdrs : found (request pairs hdrs) "covid19" "caso" "covid19" caso.
Proof. split_and!; [reflexivity|discriminate|reflexivity]. Defined.

Lemma export_without_filter_rejected_witness :
  let r := request [("format", "csv")] browser in
  found r "covid19" "caso" "covid19" caso
  ∧ numbers r 1 50
  ∧ values_of "format" (query_pairs r) = ["csv"]
  ∧ parse_querystring caso (filter_params r) = ([], "", ())
  ∧ Query_truthy ([] : Query) = false
  ∧ SearchQuery_truthy ("" : SearchQuery) = false
  ∧ dataset_detail r "covid19" "caso" = return_ (csv_without_filters_page "covid19").
Proof.
  intros r.
  assert (numbers r 1 50) as Hnum by (split; vm_compute; reflexivity).
  assert (values_of "format" (query_pairs r) = ["csv"]) as Hcsv by reflexivity.
  assert (parse_querystring caso (filter_params r) = ([], "", ())) as Hparse
    by (vm_compute; reflexivity).
  split_and!; [apply found_caso|done..|].
  exact (proj1 (export_without_filter_rejected r "covid19" "caso" "covid19" caso 1 50
                  [] "" () (found_caso _ _) Hnum Hcsv Hparse eq_refl eq_refl)).
Defined.

(** The page number is checked before the export guards: with [page=abc]
    the answer is the 404 page, not the 400 page. *)
Lemma export_needs_filter_fails_on_bad_page :
  ¬ export_needs_filter (request [("format", "csv"); ("page", "abc")] browser)
      "covid19" "caso".
Proof.
  intros Hclaim.
  destruct (Hclaim "covid19" caso [] "" ()) as [(template_name & context & Hpage) _].
  - apply found_caso.
  - reflexivity.
  - vm_compute. reflexivity.
  - reflexivity.
  - reflexivity.
  - assert (status_of (dataset_detail
              (request [("format", "csv"); ("page", "abc")] browser) "covid19" "caso")
            = Some 404) as Hstatus by (vm_compute; reflexivity).
    unfold status_of in Hstatus. rewrite Hpage in Hstatus. discriminate.
Qed.

Lemma export_without_agent_rejected_witness :
  let r := request [("city", "Recife"); ("format", "csv")]
             {[ "User-Agent" := "WGET/1.21 (linux-gnu)" ]} in
  found r "covid19" "caso" "covid19" caso
  ∧ numbers r 1 50
  ∧ values_of "format" (query_pairs r) = ["csv"]
  ∧ (user_agent_of r = "" ∨ blocked_agent (user_agent_of r))
  ∧ dataset_detail r "covid19" "caso" = return_ (csv_without_filters_page "covid19").
Proof.
  intros r.
  assert (numbers r 1 50) as Hnum by (split; vm_compute; reflexivity).
  assert (values_of "format" (query_pairs r) = ["csv"]) as Hcsv by reflexivity.
  assert (user_agent_of r = "" ∨ blocked_agent (user_agent_of r)) as Hagent.
  { right. exists "Wget". split; [|vm_compute; reflexivity].
    apply elem_of_cons; right. apply elem_of_cons; by left. }
  split_and!; [apply found_caso|done..|].
  exact (proj1 (export_without_agent_rejected r "covid19" "caso" "covid19" caso 1 50
                  (found_caso _ _) Hnum Hcsv Hagent)).
Defined.

(** Without a user agent, and with [page=abc]: again the 404 page. *)
Lemma export_needs_agent_fails_on_bad_page :
  ¬ export_needs_agent
      (request [("city", "Recife"); ("format", "csv"); ("page", "abc")] ∅)
      "covid19" "caso".
Proof.
  intros Hclaim.
  destruct (Hclaim "covid19" caso) as [(template_name & context & Hpage) _].
  - apply found_caso.
  - reflexivity.
  - left. reflexivity.
  - assert (status_of (dataset_detail
              (request [("city", "Recife"); ("format", "csv"); ("page", "abc")] ∅)
              "covid19" "caso")
            = Some 404) as Hstatus by (vm_compute; reflexivity).
    unfold status_of in Hstatus. rewrite Hpage in Hstatus. discriminate.
Qed.

Lemma not_blocked_browser pairs : ¬ blocked_agent (user_agent_of (request pairs browser)).
Proof. intros Hb%block_agent_of_true. vm_compute in Hb. discriminate. Defined.

(** Two rows for Recife and a ceiling of two: the export streams; three rows
    for SaoPaulo: it is rejected. *)
Lemma export_ceiling_witness :
  let r := request [("city", "Recife"); ("format", "csv")] browser in
  found r "covid19" "caso" "covid19" caso
  ∧ numbers r 1 50
  ∧ values_of "format" (query_pairs r) = ["csv"]
  ∧ parse_querystring caso (filter_params r) = ([("city", "Recife")], "", ())
  ∧ Query_truthy ([("city", "Recife")] : Query) || SearchQuery_truthy ("" : SearchQuery)
    = true
  ∧ user_agent_of r ≠ ""
  ∧ ¬ blocked_agent (user_agent_of r)
  ∧ count (composed_query caso [("city", "Recife")] "" ()) = CSV_EXPORT_MAX_ROWS
  ∧ streams (dataset_detail r "covid19" "caso").
Proof.
  intros r.
  assert (numbers r 1 50) as Hnum by (split; vm_compute; reflexivity).
  assert (values_of "format" (query_pairs r) = ["csv"]) as Hcsv by reflexivity.
  assert (user_agent_of r ≠ "") as Hagent by (vm_compute; discriminate).
  assert (count (composed_query caso [("city", "Recife")] "" ()) = CSV_EXPORT_MAX_ROWS)
    as Hcount by (vm_compute; reflexivity).
  split_and!; [apply found_caso|done|done|apply parse_city_filter|reflexivity|done|
               apply not_blocked_browser|done|].
  exact (proj1 (proj2 (proj2 (proj2
           (export_ceiling r "covid19" "caso" "covid19" caso 1 50
              [("city", "Recife")] "" () (found_caso _ _) Hnum Hcsv parse_city_filter
              eq_refl Hagent (not_blocked_browser _))))) Hcount).
Defined.

Example one_above_ceiling_rejected :
  count (composed_query caso [("city", "SaoPaulo")] "" ()) = CSV_EXPORT_MAX_ROWS + 1
  ∧ step (dataset_detail (request [("city", "SaoPaulo"); ("format", "csv")] browser)
            "covid19" "caso")
    = Return max_rows_page.
Proof. split; vm_compute; reflexivity. Qed.
Lemma page_size_clamped_witness :
  let r := request [("city", "Recife"); ("items", "2000")] browser in
  int (items_number r) = Some 2000
  ∧ ∃ paginator,
      paginator_of (dataset_detail r "covid19" "caso") = Some paginator
      ∧ per_page paginator = 1000.
Proof.
  intros r.
  assert (int (items_number r) = Some 2000) as Hn by (vm_compute; reflexivity).
  split; [done|].
  destruct (page_size_clamped r "covid19" "caso" 2000 Hn) as [Hsize Hbuilt].
  destruct (Hbuilt "covid19" caso 1 (found_caso _ _)) as (paginator & Hpag & _).
  - vm_compute. reflexivity.
  - discriminate.
  - exists paginator. split; [done|].
    apply (Hsize paginator Hpag). reflexivity.
Defined.

Example small_page_size_kept :
  per_page <$> paginator_of (dataset_detail
                               (request [("city", "Recife"); ("items", "7")] browser)
                               "covid19" "caso")
  = Some 7.
Proof. vm_compute. reflexivity. Qed.

Lemma invalid_number_not_found_witness :
  let r := request [("city", "Recife"); ("page", "abc"); ("items", "x")] browser in
  found r "covid19" "caso" "covid19" caso
  ∧ (int (page_number r) = None ∨ int (items_number r) = None)
  ∧ dataset_detail r "covid19" "caso"
    = return_ (render "404.html" (ctx_message "Invalid page number.") 404).
Proof.
  intros r.
  assert (int (page_number r) = None) as Hpage by (vm_compute; reflexivity).
  split_and!; [apply found_caso|by left|].
  destruct (invalid_number_not_found r "covid19" "caso" _ _
              (found_caso _ _) (or_introl Hpage)) as (message & -> & -> & _).
  by rewrite Hpage.
Defined.

Example invalid_items_not_found :
  status_of (dataset_detail (request [("page", "2"); ("items", "ten")] browser)
               "covid19" "caso")
  = Some 404.
Proof. vm_compute. reflexivity. Qed.

(** A blank [page] does not convert, yet it is replaced by the default
    before [int] is called: the page is rendered. *)
Lemma number_must_parse_fails_on_blank_page :
  ¬ number_must_parse (request [("city", "Recife"); ("page", "")] browser)
      "covid19" "caso".
Proof.
  intros Hclaim.
  destruct (Hclaim "covid19" caso "") as (message & _ & Hpage).
  - apply found_caso.
  - left. reflexivity.
  - reflexivity.
  - assert (status_of (dataset_detail
              (request [("city", "Recife"); ("page", "")] browser) "covid19" "caso")
            = Some 200) as Hstatus by (vm_compute; reflexivity).
    unfold status_of in Hstatus. rewrite Hpage in Hstatus. discriminate.
Qed.

(** The hidden table, asked for by a caller who is not privileged. *)
Lemma missing_table_not_found_witness :
  let r := request [] browser in
  Dataset_objects_get "covid19" = Some "covid19"
  ∧ "interno" ≠ ""
  ∧ get_table "covid19" "interno" (user_is_superuser r) = None
  ∧ dataset_detail r "covid19" "interno"
    = mkFlow [log_blocked_request r 404]
             (Return (render "404.html" (ctx_message "Table does not exist") 404)).
Proof.
  intros r.
  assert (Dataset_objects_get "covid19" = Some "covid19") as Hd by reflexivity.
  assert ("interno" ≠ "") as Hname by discriminate.
  assert (get_table "covid19" "interno" (user_is_superuser r) = None) as Ht
    by reflexivity.
  split_and!; [done..|].
  destruct (missing_table_not_found r "covid19" "interno" _ Hd Hname Ht)
    as (Hstep & Heffects & _).
  destruct (dataset_detail r "covid19" "interno") as [effects step].
  simpl in *. by rewrite Hstep, Heffects.
Defined.

Example absent_table_not_logged :
  effects (dataset_detail (request [] browser) "covid19" "obito") = []
  ∧ status_of (dataset_detail (request [] browser) "covid19" "obito") = Some 404.
Proof. split; vm_compute; reflexivity. Qed.

Lemma no_table_redirects_witness :
  Dataset_objects_get "covid19" = Some "covid19"
  ∧ dataset_detail (request [("city", "Recife")] browser) "covid19" ""
    = return_ (redirect "/dataset/covid19/caso").
Proof.
  assert (Dataset_objects_get "covid19" = Some "covid19") as Hd by reflexivity.
  split; [done|].
  exact (proj1 (no_table_redirects (request [("city", "Recife")] browser)
                  "covid19" _ Hd)).
Defined.

Lemma export_iff_single_csv_witness :
  let r := request [("city", "Recife"); ("format", "csv"); ("format", "csv")] browser in
  found r "covid19" "caso" "covid19" caso
  ∧ numbers r 1 50
  ∧ values_of "format" (query_pairs r) = ["csv"; "csv"]
  ∧ ¬ export_path (dataset_detail r "covid19" "caso")
  ∧ status_of (dataset_detail r "covid19" "caso") = Some 200.
Proof.
  intros r.
  assert (numbers r 1 50) as Hnum by (split; vm_compute; reflexivity).
  destruct (export_iff_single_csv r "covid19" "caso") as (_ & _ & Hpath & Hnot).
  split_and!; [apply found_caso|done|reflexivity| |].
  - apply Hnot. by left.
  - destruct (Hpath "covid19" caso 1 50 (found_caso _ _) Hnum) as [_ Hpage].
    destruct Hpage as (context & Hstep); [discriminate|].
    unfold status_of. by rewrite Hstep.
Defined.

Example uppercase_format_is_no_export :
  status_of (dataset_detail (request [("city", "Recife"); ("format", "CSV")] ∅)
               "covid19" "caso")
  = Some 200.
Proof. vm_compute. reflexivity. Qed.

Example single_format_is_export :
  status_of (dataset_detail (request [("city", "Recife"); ("format", "csv")] ∅)
               "covid19" "caso")
  = Some 400.
Proof. vm_compute. reflexivity. Qed.

(** No row matches: the export passes the guards and streams nothing. *)
Example export_of_no_rows :
  step (dataset_detail (request [("city", "Manaus"); ("format", "csv")] browser)
          "covid19" "caso")
  = Return (csv_response "covid19" [] caso_fields).
Proof. vm_compute. reflexivity. Qed.
End Checks.

(** * Further properties *)

(** ** The CSV encoder on any field list *)

Section CsvMore.
Context {Value : Type} (obfuscate : Value → Value).
Implicit Types (row : Row Value) (field : Field.t) (fields : list Field.t).
Import PyDict PyDictFacts.

Lemma getitems_lookup (d : PyDict.t Value) ks vs j k :
  getitems d ks = inr vs → ks !! j = Some k → vs !! j = getitem d k.
Proof.
  revert vs j. induction ks as [|k' ks IH]; intros vs j Hget Hk; [done|].
  simpl in Hget. destruct (getitem d k') as [v|] eqn:Hv; [|done].
  destruct (getitems d ks) as [|vs'] eqn:Hvs; [done|].
  injection Hget as <-. destruct j as [|j]; simpl in *.
  - by injection Hk as <-.
  - by apply IH.
Qed.

Lemma getitems_length (d : PyDict.t Value) ks vs :
  getitems d ks = inr vs → length vs = length ks.
Proof.
  revert vs. induction ks as [|k ks IH]; intros vs Hget; simpl in *.
  - by injection Hget as <-.
  - destruct (getitem d k); [|done]. destruct (getitems d ks); [done|].
    injection Hget as <-. simpl. by rewrite IH.
Qed.

(** Every row is read under the header of the first one. *)
Lemma csv_loop_lines fields row0 (rows : list (Row Value)) :
  let header := keys (build_row_data obfuscate fields row0) in
  ∃ lines,
    csv_loop obfuscate fields (Some header) rows = (data_row <$> lines, None)
    ∧ Forall2 (λ row values,
                 getitems (build_row_data obfuscate fields row) header = inr values)
              rows lines.
Proof.
  intros header. induction rows as [|row rows (lines & IH & Hall)]; simpl.
  - by exists [].
  - destruct (getitems_is_inr (build_row_data obfuscate fields row) header)
      as (vs & Hvs & _).
    { unfold header. by rewrite (keys_build_row_data obfuscate row0 row). }
    rewrite Hvs, IH. exists (vs :: lines). split; [done|]. by constructor.
Qed.

Lemma queryset_to_csv_lines row (rows : list (Row Value)) fields :
  let header := keys (build_row_data obfuscate fields row) in
  ∃ lines,
    queryset_to_csv obfuscate (row :: rows) fields
    = (header_row header :: (data_row <$> lines), None)
    ∧ Forall2 (λ row values,
                 getitems (build_row_data obfuscate fields row) header = inr values)
              (row :: rows) lines.
Proof.
  intros header. unfold queryset_to_csv. simpl.
  destruct (getitems_is_inr (build_row_data obfuscate fields row) header)
    as (vs & Hvs & _); [done|].
  destruct (csv_loop_lines fields row rows) as (lines & Hloop & Hall).
  fold header. rewrite Hvs. fold header in Hloop. rewrite Hloop.
  exists (vs :: lines). split; [done|]. by constructor.
Qed.





(** X3: for any field list, the value under a column is what the last
    shown field of that name gives for the row: its attribute, obfuscated
    when that field is flagged. *)
Theorem csv_cell_last_field row (rows : list (Row Value)) fields :
  ∃ header lines,
    queryset_to_csv obfuscate (row :: rows) fields
    = (header_row header :: (data_row <$> lines), None)
    ∧ ∀ i r values j k,
        (row :: rows) !! i = Some r → lines !! i = Some values →
        header !! j = Some k →
        ∃ field,
          last (filter (λ field, Field.name field = k) (visible fields)) = Some field
          ∧ values !! j = Some (shown obfuscate r field).
Proof.
  destruct (queryset_to_csv_lines row rows fields) as (lines & Heq & Hall).
  eexists _, lines. split; [done|].
  intros i r values j k Hr Hvalues Hk.
  pose proof (Forall2_lookup_lr _ _ _ _ _ _ Hall Hr Hvalues) as Hget.
  pose proof (getitems_lookup _ _ _ _ _ Hget Hk) as Hcell.
  pose proof (getitems_length _ _ _ Hget) as Hlen.
  assert (is_Some (values !! j)) as [v Hv].
  { apply lookup_lt_is_Some. rewrite Hlen. by apply lookup_lt_Some in Hk. }
  rewrite Hv in Hcell. unfold build_row_data in Hcell.
  rewrite getitem_foldl_row_data_step in Hcell.
  destruct (last _) as [field|]; [|done].
  exists field. split; [done|]. by rewrite Hv, Hcell.
Qed.
End CsvMore.

(** ** [dataset_detail] as a whole *)

Lemma str_app_nil (s : string) : ("" +:+ s)%string = s.
Proof. reflexivity. Qed.

Lemma str_app_cons a (s t : string) : (String a s +:+ t)%string = String a (s +:+ t)%string.
Proof. reflexivity. Qed.

Lemma str_prefix_spec (sub s : string) :
  String.prefix sub s = true ↔ ∃ post, s = (sub +:+ post)%string.
Proof.
  revert s. induction sub as [|a sub IH]; intros s.
  - split; [|by destruct s]. intros _. by exists s.
  - destruct s as [|b s]; simpl.
    + split; [done|]. by intros [post Hpost].
    + destruct (Ascii.ascii_dec a b) as [->|Hne].
      * rewrite IH. split; intros [post Hpost]; exists post.
        -- by rewrite str_app_cons, <- Hpost.
        -- rewrite str_app_cons in Hpost. by injection Hpost.
      * split; [done|]. intros [post Hpost].
        rewrite str_app_cons in Hpost. by injection Hpost as ->.
Qed.

(** [sub in s] holds exactly when [s] is some text, then [sub], then some
    text. *)
Lemma str_in_spec (sub s : string) :
  str_in sub s = true ↔ ∃ pre post, s = (pre +:+ sub +:+ post)%string.
Proof.
  induction s as [|a s IH].
  - change (str_in sub "") with (String.prefix sub "" || false).
    rewrite orb_false_r, str_prefix_spec. split.
    + intros [post ->]. by exists "", post.
    + intros ([|? ?] & post & Heq); [by exists post|done].
  - change (str_in sub (String a s))
      with (String.prefix sub (String a s) || str_in sub s).
    rewrite orb_true_iff, str_prefix_spec, IH. split.
    + intros [[post ->]|(pre & post & ->)].
      * by exists "", post.
      * by exists (String a pre), post.
    + intros ([|b pre] & post & Heq).
      * left. by exists post.
      * rewrite str_app_cons in Heq. injection Heq as -> ->.
        right. by exists pre, post.
Qed.


Section ViewMore.
Context `{Python, Settings, Encoders}.
Implicit Types (request : HttpRequest) (slug tablename : string).
Implicit Types (dataset : Dataset) (table : Table) (p n : Z).

(** The keys lines 125-127 pop. *)
Lemma filter_params_lookup request key :
  filter_params request !! key
  = if bool_decide (key ∈ ["page"; "items"; "format"]) then None
    else match values_of key (query_pairs request) with
         | [] => None
         | values => Some values
         end.
Proof.
  unfold filter_params, GET. case_bool_decide as Hkey.
  - apply elem_of_cons in Hkey as [->|Hkey]; [by simplify_map_eq|].
    apply elem_of_cons in Hkey as [->|Hkey]; [by simplify_map_eq|].
    apply list_elem_of_singleton in Hkey as ->. by simplify_map_eq.
  - rewrite !lookup_delete_ne, QueryDict_of_lookup; [done|..];
      intros <-; apply Hkey; set_solver.
Qed.


(** X5: the only effect the view can have is one call
    [log_blocked_request(request, 404)], and it has it only together with
    the 404 answer, for a caller who is no superuser, when the named table
    exists among the hidden ones but not among the visible ones. *)
Theorem dataset_detail_logs_hidden_only request slug tablename :
  let r := dataset_detail request slug tablename in
  effects r = []
  ∨ (effects r = [log_blocked_request request 404]
     ∧ step r = Return (render "404.html" (ctx_message "Table does not exist") 404)
     ∧ user_is_superuser request = false
     ∧ ∃ dataset hidden_table,
         Dataset_objects_get slug = Some dataset
         ∧ get_table dataset tablename false = None
         ∧ get_table dataset tablename true = Some hidden_table).
Proof.
  intros r. unfold r.
  destruct (dataset_detail_cases request slug tablename)
    as [[_ ->]|[(?&_&_&->)|[(dataset&Hd&_&Ht&->)|[(?&?&_&_&->)|[(?&?&?&_&_&_&->)|
        (dataset&table&p&n&_&_&->)]]]]]; try (by left).
  - simpl. destruct (get_table dataset tablename true) as [hidden|] eqn:Hh; [|by left].
    right. destruct (user_is_superuser request); [congruence|].
    split_and!; [done..|]. by exists dataset, hidden.
  - destruct (respond_cases request slug dataset table (params_of request p n))
      as (?&?&?&_&->). by left.
Qed.

(** X9: the parameters handed on for filtering never hold [page], [items]
    or [format], and hold every other key of the query string with all its
    values in order. *)
Theorem control_params_removed request params :
  step (read_params request) = Continue params →
  ∀ key,
    querystring params !! key
    = if bool_decide (key ∈ ["page"; "items"; "format"]) then None
      else match values_of key (query_pairs request) with
           | [] => None
           | values => Some values
           end.
Proof.
  rewrite read_params_eq. intros Hstep key.
  destruct (int (page_number request)); [|done].
  destruct (int (items_number request)); [|done].
  injection Hstep as <-. apply filter_params_lookup.
Qed.

End ViewMore.

Section ViewLink.
Context `{Python, Settings, Encoders}.
Implicit Types (request : HttpRequest) (slug tablename : string).
Implicit Types (dataset : Dataset) (table : Table) (p n : Z).





(** X7: the query parameters the page echoes for its links hold neither
    [page], [items] nor [format], and of the other keys exactly those whose
    last value is not empty, each with all its values. *)
Theorem echoed_query_dict request slug tablename dataset table p n :
  found request slug tablename dataset table →
  numbers request p n →
  values_of "format" (query_pairs request) ≠ ["csv"] →
  ∃ context,
    step (dataset_detail request slug tablename)
    = Return (render "core/dataset-detail.html" (ctx_detail context) 200)
    ∧ ∀ key,
        ctx_query_dict context !! key
        = let values := values_of key (query_pairs request) in
          if bool_decide (key ∈ ["page"; "items"; "format"]) then None
          else if from_option str_truthy false (last values) then Some values
          else None.
Proof.
  intros Hfound Hnum Hformat.
  destruct (parse_querystring table (filter_params request))
    as [[query search_query] order_by] eqn:Hparse.
  rewrite (page_response _ _ _ _ _ _ _ _ _ _ Hfound Hnum Hformat Hparse).
  eexists. split; [reflexivity|]. intros key. simpl.
  unfold QueryDict_drop_empty. rewrite map_lookup_filter, filter_params_lookup.
  case_bool_decide; [done|].
  destruct (values_of key (query_pairs request)) as [|value values] eqn:Hvalues;
    [done|].
  simpl. case_guard as Hlast; simpl in *.
  - by rewrite Hlast.
  - by apply not_true_is_false in Hlast as ->.
Qed.

(** X8: a user agent is blocked exactly when the lower-cased text of some
    configured token occurs in its lower-cased text, at any place. *)
Theorem block_agent_substring (user_agent : string) :
  block_agent_of user_agent = true
  ↔ ∃ agent pre post,
      agent ∈ BLOCKED_AGENTS
      ∧ lower user_agent = (pre +:+ lower agent +:+ post)%string.
Proof.
  rewrite block_agent_of_true. unfold blocked_agent. split.
  - intros (agent & Hin & (pre & post & Heq)%str_in_spec). by exists agent, pre, post.
  - intros (agent & pre & post & Hin & Heq). exists agent. split; [done|].
    apply str_in_spec. by exists pre, post.
Qed.
End ViewLink.

(** ** The other views *)

Lemma str_split_nonempty sep s : str_split sep s ≠ [].
Proof.
  destruct s as [|a s]; simpl; [done|].
  destruct (Ascii.eqb a sep); [done|]. by destruct (str_split sep s).
Qed.

Lemma str_join_cons_char sep a piece pieces :
  str_join sep (String a piece :: pieces) = String a (str_join sep (piece :: pieces)).
Proof. by destruct pieces. Qed.

Lemma foldl_max_spec (values : list Z) (value : Z) :
  value ≤ foldl Z.max value values
  ∧ (∀ x, x ∈ values → x ≤ foldl Z.max value values)
  ∧ (foldl Z.max value values = value ∨ foldl Z.max value values ∈ values).
Proof.
  revert value. induction values as [|y values IH]; intros value; simpl.
  - split_and!; [lia| |by left]. by intros x ?%elem_of_nil.
  - destruct (IH (Z.max value y)) as (Hle & Hall & Hin). split_and!.
    + lia.
    + intros x [->|Hx]%elem_of_cons; [lia|by apply Hall].
    + destruct Hin as [Heq|Hin].
      * rewrite Heq. destruct (Z.max_spec value y) as [[_ ->]|[_ ->]].
        -- right. apply elem_of_cons. by left.
        -- by left.
      * right. apply elem_of_cons. by right.
Qed.

Lemma py_max_spec (values : list Z) (m : Z) :
  py_max values = Some m → m ∈ values ∧ ∀ x, x ∈ values → x ≤ m.
Proof.
  destruct values as [|value values]; [done|]. simpl. intros [= <-].
  destruct (foldl_max_spec values value) as (Hle & Hall & Hin). split.
  - apply elem_of_cons. destruct Hin as [->|?]; auto.
  - intros x [->|Hx]%elem_of_cons; auto.
Qed.

(** X10: cutting at the separator and joining with it gives the text back;
    there is always at least one piece, and no piece holds the separator. *)
Theorem str_split_join (sep : ascii) (s : string) :
  str_join (String sep EmptyString) (str_split sep s) = s
  ∧ str_split sep s ≠ []
  ∧ Forall (λ piece, str_in (String sep EmptyString) piece = false) (str_split sep s).
Proof.
  split_and!; [|apply str_split_nonempty|].
  - induction s as [|a s IH]; [done|]. simpl.
    destruct (Ascii.eqb_spec a sep) as [->|Hne].
    + pose proof (str_split_nonempty sep s).
      destruct (str_split sep s) as [|piece pieces] eqn:Hs; [done|].
      change (str_join (String sep "") ("" :: piece :: pieces))
        with (String sep (str_join (String sep "") (piece :: pieces))).
      by rewrite IH.
    + pose proof (str_split_nonempty sep s).
      destruct (str_split sep s) as [|piece pieces] eqn:Hs; [done|].
      by rewrite str_join_cons_char, IH.
  - induction s as [|a s IH]; simpl.
    + repeat constructor.
    + destruct (Ascii.eqb_spec a sep) as [->|Hne].
      * constructor; [done|done].
      * pose proof (str_split_nonempty sep s).
        destruct (str_split sep s) as [|piece pieces] eqn:Hs; [done|].
        apply Forall_cons in IH as [Hpiece Hpieces]. constructor; [|done].
        change (str_in (String sep "") (String a piece))
          with (String.prefix (String sep "") (String a piece)
                || str_in (String sep "") piece).
        rewrite Hpiece, orb_false_r. simpl.
        destruct (Ascii.ascii_dec sep a); [congruence|done].
Qed.

Section SiteFacts.
Context `{Python, Settings, Encoders, !Site}.

Lemma Q_holds_add_terms (q : Q) (terms : list string) (dataset : Dataset) :
  Site.Q_holds (foldl Site.add_term q terms) dataset
  = Site.Q_holds q dataset
    && forallb (λ term, icontains (Dataset_description dataset) term
                        || icontains (Dataset_name dataset) term) terms.
Proof.
  revert q. induction terms as [|term terms IH]; intros q; simpl.
  - by rewrite andb_true_r.
  - by rewrite IH, andb_assoc.
Qed.

(** X11: [contact] sends mail exactly for a [POST] with a valid form, and
    answers with a redirect exactly then; the mail is a single message to the
    site's own address, with the sender as reply address and the message as
    body, and the redirect goes to the contact page with [?sent=true]. *)
Theorem contact_mail_iff_valid_post (request : FormRequest) :
  let mails := (Site.contact request).1 in
  let response := (Site.contact request).2 in
  (mails ≠ [] ↔ method request = "POST" ∧ is_Some (ContactForm_clean (POST request)))
  ∧ ((∃ to, response = Site.redirect to) ↔ mails ≠ [])
  ∧ ∀ mail, mail ∈ mails →
      mails = [mail]
      ∧ Site.to mail = [DEFAULT_FROM_EMAIL]
      ∧ response = Site.redirect (reverse_contact +:+ "?sent=true")%string
      ∧ ∃ data,
          ContactForm_clean (POST request) = Some data
          ∧ Site.body mail = data_message data
          ∧ Site.reply_to mail
            = [(data_name data +:+ " <" +:+ data_email data +:+ ">")%string].
Proof.
  intros mails response. unfold mails, response, Site.contact.
  case_bool_decide as Hget.
  { simpl. split_and!.
    - split; [done|]. intros [Hpost _]. rewrite Hget in Hpost. discriminate.
    - split; [by intros [? ?]|done].
    - by intros mail ?%elem_of_nil. }
  case_bool_decide as Hpost.
  - destruct (ContactForm_clean (POST request)) as [data|] eqn:Hclean; simpl.
    + split_and!.
      * split; [by eauto|done].
      * split; [done|]. intros _. by eexists.
      * intros mail ->%list_elem_of_singleton. split_and!; [done..|].
        by exists data.
    + split_and!.
      * split; [done|]. by intros [_ [? ?]].
      * split; [by intros [? ?]|done].
      * by intros mail ?%elem_of_nil.
  - simpl. split_and!.
    + split; [done|]. by intros [? _].
    + split; [by intros [? ?]|done].
    + by intros mail ?%elem_of_nil.
Qed.

(** X12: [contact] answers 405 exactly for a method other than [GET] and
    [POST], and then sends nothing; under [GET] and under a [POST] whose form
    is not valid it renders the contact page with status 200. *)
Theorem contact_method_not_allowed (request : FormRequest) :
  let response := (Site.contact request).2 in
  ((∃ template_name context, response = Site.render template_name context 405)
   ↔ method request ≠ "GET" ∧ method request ≠ "POST")
  ∧ (method request ≠ "GET" → method request ≠ "POST" →
       Site.contact request
       = ([], Site.render "4xx.html"
                (Site.ctx_4xx "Invalid HTTP method." "Oops! Ocorreu um erro:") 405))
  ∧ (method request = "GET"
     ∨ (method request = "POST" ∧ ContactForm_clean (POST request) = None) →
       ∃ form sent,
         Site.contact request
         = ([], Site.render "core/contact.html" (Site.ctx_contact form sent) 200)).
Proof.
  intros response. unfold response, Site.contact.
  case_bool_decide as Hget; [|case_bool_decide as Hpost].
  - simpl. split_and!.
    + split; [by intros (?&?&?)|]. by intros [? _].
    + done.
    + intros _. by eexists _, _.
  - destruct (ContactForm_clean (POST request)) as [data|] eqn:Hclean; simpl.
    + split_and!.
      * split; [by intros (?&?&?)|]. by intros [_ ?].
      * done.
      * intros [?|[_ ?]]; done.
    + split_and!.
      * split; [by intros (?&?&?)|]. by intros [_ ?].
      * done.
      * intros _. by eexists _, _.
  - simpl. split_and!.
    + split; [done|]. intros _. by eexists _, _.
    + done.
    + intros [?|[? _]]; done.
Qed.

(** X13: [dataset_list] renders the list page over the datasets that are
    shown and, when the search form is valid, match every piece of the search
    text cut at single spaces, in the description or in the name; it asks
    for them in the order of their names. *)
Theorem dataset_list_rows (request : HttpRequest) :
  ∃ query,
    Site.dataset_list request
    = Site.render "core/dataset-list.html"
        (Site.ctx_dataset_list query (GET request)) 200
    ∧ Site.order_by query = "name"
    ∧ ∀ dataset,
        dataset ∈ Site.rows_of query
        ↔ dataset ∈ Dataset_objects_all
          ∧ Dataset_show dataset = true
          ∧ ∀ search_str term,
              DatasetSearchForm_clean (GET request) = Some search_str →
              term ∈ str_split " " search_str →
              icontains (Dataset_description dataset) term = true
              ∨ icontains (Dataset_name dataset) term = true.
Proof.
  eexists. split; [reflexivity|]. split; [reflexivity|]. intros dataset.
  unfold Site.rows_of. simpl.
  rewrite list_elem_of_In, filter_In, <- list_elem_of_In.
  unfold Site.search_q.
  destruct (DatasetSearchForm_clean (GET request)) as [search_str|]; simpl.
  - rewrite Q_holds_add_terms, andb_true_iff, forallb_forall. simpl.
    rewrite bool_decide_eq_true. split.
    + intros (Hin & Hshow & Hterms). split_and!; [done..|].
      intros ? term [= <-] Hterm%list_elem_of_In.
      by apply orb_true_iff, Hterms.
    + intros (Hin & Hshow & Hterms). split_and!; [done..|].
      intros term Hterm%list_elem_of_In. apply orb_true_iff. by eapply Hterms.
  - rewrite bool_decide_eq_true. split.
    + intros [? ?]. by split_and!.
    + intros (? & ? & _). done.
Qed.

(** X14: the order of the pieces of the search text does not matter: two
    valid searches whose pieces are the same up to order select the same
    datasets. *)
Theorem search_terms_commute (GET GET' : gmap string (list string))
    (search_str search_str' : string) (dataset : Dataset) :
  DatasetSearchForm_clean GET = Some search_str →
  DatasetSearchForm_clean GET' = Some search_str' →
  str_split " " search_str ≡ₚ str_split " " search_str' →
  Site.Q_holds (Site.search_q GET) dataset = Site.Q_holds (Site.search_q GET') dataset.
Proof.
  intros Hclean Hclean' Hperm. unfold Site.search_q.
  rewrite Hclean, Hclean', !Q_holds_add_terms. f_equal.
  induction Hperm as [|term ?? _ IH|term term' ?|??? _ IH1 _ IH2]; simpl.
  - done.
  - by rewrite IH.
  - rewrite !andb_assoc. f_equal. apply andb_comm.
  - by rewrite IH1.
Qed.

(** X15: when the random order is an order of the same rows, [home] shows
    at most six datasets, all of them shown ones from the catalogue, six of
    them as soon as six are shown, and none twice unless the catalogue holds
    it twice. *)
Theorem home_shows_six (Hrandom : ∀ l, random_order l ≡ₚ l) :
  ∃ datasets,
    Site.home = Site.render "core/home.html" (Site.ctx_home datasets) 200
    ∧ length datasets
      = (6 `min` length (List.filter (λ d, bool_decide (Dataset_show d = true))
                           Dataset_objects_all))%nat
    ∧ (∀ dataset, dataset ∈ datasets →
         dataset ∈ Dataset_objects_all ∧ Dataset_show dataset = true)
    ∧ (NoDup Dataset_objects_all → NoDup datasets).
Proof.
  eexists. split; [reflexivity|]. split_and!.
  - by rewrite length_take, (Permutation_length (Hrandom _)).
  - intros dataset Hin%subseteq_take. rewrite (Hrandom _) in Hin.
    apply list_elem_of_In, filter_In in Hin as [Hin Hshow].
    split; [by apply list_elem_of_In|]. by apply bool_decide_eq_true in Hshow.
  - intros Hnd. eapply sublist_NoDup; [|apply sublist_take].
    rewrite (Hrandom _). apply NoDup_ListNoDup, List.NoDup_filter.
    by apply NoDup_ListNoDup.
Qed.

(** X16: [dataset_files_detail] raises [Http404] exactly when the slug
    names no dataset, redirects to the download of the last version exactly
    when the dataset has no file listing, renders the 404 template with
    status 200 when the listing is empty, and raises [ValueError] exactly when
    the listing has files but the dataset has no table. *)
Theorem dataset_files_outcomes (slug : string) :
  (Site.dataset_files_detail slug = inl Site.Http404 ↔ Dataset_objects_get slug = None)
  ∧ ∀ dataset,
      Dataset_objects_get slug = Some dataset →
      ((∃ to, Site.dataset_files_detail slug = inr (Site.redirect to))
       ↔ all_files dataset = None)
      ∧ (all_files dataset = None →
           Site.dataset_files_detail slug
           = inr (Site.redirect (last_version_download_url dataset)))
      ∧ (all_files dataset = Some [] →
           Site.dataset_files_detail slug
           = inr (Site.render "404.html"
                    (Site.ctx_message (Site.no_files_message slug)) 200))
      ∧ (Site.dataset_files_detail slug = inl Site.ValueError
         ↔ ∃ file files,
             all_files dataset = Some (file :: files) ∧ Dataset_tables dataset = []).
Proof.
  unfold Site.dataset_files_detail. split.
  - destruct (Dataset_objects_get slug) as [dataset|]; [|done].
    split; [|done]. destruct (all_files dataset) as [[|? ?]|]; [done| |done].
    by destruct (py_max _).
  - intros dataset ->.
    destruct (all_files dataset) as [[|file files]|] eqn:Hfiles.
    + split_and!; [|done|done|].
      * split; [by intros [? ?]|done].
      * split; [done|]. by intros (?&?&?&_).
    + destruct (Dataset_tables dataset) as [|table tables] eqn:Htables; simpl.
      * split_and!; [|done|done|].
        -- split; [by intros [? ?]|done].
        -- split; [|done]. intros _. by exists file, files.
      * split_and!; [|done|done|].
        -- split; [by intros [? ?]|done].
        -- split; [done|]. by intros (?&?&_&?).
    + split_and!; [|done|done|].
      * split; [done|]. intros _. by eexists.
      * split; [done|]. by intros (?&?&?&_).
Qed.

(** X17: when [dataset_files_detail] renders the file list, the dataset
    has files, and the capture date shown is the collect date of one of its
    tables and no table has a later one. *)
Theorem files_capture_date_is_latest (slug : string) (template_name : string)
    (dataset : Dataset) (capture_date : Z) (file_list : list File) (status : Z) :
  Site.dataset_files_detail slug
  = inr (Site.render template_name (Site.ctx_files dataset capture_date file_list)
           status) →
  Dataset_objects_get slug = Some dataset
  ∧ all_files dataset = Some file_list
  ∧ file_list ≠ []
  ∧ (∃ table, table ∈ Dataset_tables dataset ∧ collect_date table = capture_date)
  ∧ ∀ table, table ∈ Dataset_tables dataset → collect_date table ≤ capture_date.
Proof.
  unfold Site.dataset_files_detail.
  destruct (Dataset_objects_get slug) as [dataset'|]; [|done].
  destruct (all_files dataset') as [[|file files]|] eqn:Hfiles; [done| |done].
  destruct (py_max _) as [m|] eqn:Hmax; [|done].
  intros [= <- <- <- <- <-].
  apply py_max_spec in Hmax as [Hin Hall].
  split_and!; [done..| |].
  - apply list_elem_of_fmap in Hin as (table & -> & ?). by exists table.
  - intros table Htable. apply Hall, list_elem_of_fmap. by exists table.
Qed.
End SiteFacts.

(** ** The further properties on the sample site *)

Module MoreChecks.
Import Sample SampleSite.

Lemma control_params_removed_witness :
  let r := request [("city", "Recife"); ("page", "2"); ("format", "csv")] browser in
  step (read_params r) = Continue (params_of r 2 50)
  ∧ querystring (params_of r 2 50) !! "page" = None
  ∧ querystring (params_of r 2 50) !! "format" = None
  ∧ querystring (params_of r 2 50) !! "city" = Some ["Recife"].
Proof.
  intros r.
  assert (step (read_params r) = Continue (params_of r 2 50)) as Hstep
    by (vm_compute; reflexivity).
  split_and!; [done|..].
  - exact (control_params_removed r _ Hstep "page").
  - exact (control_params_removed r _ Hstep "format").
  - exact (control_params_removed r _ Hstep "city").
Defined.


Lemma echoed_query_dict_witness :
  let r := request [("city", "Recife"); ("state", ""); ("page", "2")] browser in
  found r "covid19" "caso" "covid19" caso
  ∧ numbers r 2 50
  ∧ values_of "format" (query_pairs r) ≠ ["csv"]
  ∧ ∃ context,
      step (dataset_detail r "covid19" "caso")
      = Return (render "core/dataset-detail.html" (ctx_detail context) 200)
      ∧ ctx_query_dict context !! "city" = Some ["Recife"]
      ∧ ctx_query_dict context !! "state" = None
      ∧ ctx_query_dict context !! "page" = None.
Proof.
  intros r.
  assert (numbers r 2 50) as Hnum by (split; vm_compute; reflexivity).
  assert (values_of "format" (query_pairs r) ≠ ["csv"]) as Hformat by discriminate.
  split_and!; [apply Checks.found_caso|done|done|].
  destruct (echoed_query_dict r "covid19" "caso" _ _ 2 50
              (Checks.found_caso _ _) Hnum Hformat) as (context & Hstep & Hkeys).
  exists context. split_and!; [done|..].
  - exact (Hkeys "city").
  - exact (Hkeys "state").
  - exact (Hkeys "page").
Defined.

Lemma search_terms_commute_witness :
  let q := QueryDict_of [("search", "casos covid")] in
  let q' := QueryDict_of [("search", "covid casos")] in
  DatasetSearchForm_clean q = Some "casos covid"
  ∧ DatasetSearchForm_clean q' = Some "covid casos"
  ∧ str_split " " "casos covid" ≡ₚ str_split " " "covid casos"
  ∧ Site.Q_holds (Site.search_q q) "covid19" = Site.Q_holds (Site.search_q q') "covid19".
Proof.
  intros q q'.
  assert (DatasetSearchForm_clean q = Some "casos covid") as Hq by reflexivity.
  assert (DatasetSearchForm_clean q' = Some "covid casos") as Hq' by reflexivity.
  assert (str_split " " "casos covid" ≡ₚ str_split " " "covid casos") as Hperm
    by apply perm_swap.
  split_and!; [done..|].
  exact (search_terms_commute q q' _ _ "covid19" Hq Hq' Hperm).
Defined.

Example search_is_case_blind_and_hides :
  Site.rows_of {| Site.filter_q := Site.search_q (QueryDict_of [("search", "CASOS covid")]);
                  Site.order_by := "name" |}
  = ["covid19"]
  ∧ Site.rows_of {| Site.filter_q := Site.search_q (QueryDict_of [("search", "")]);
                    Site.order_by := "name" |}
    = ["covid19"; "eleicoes"].
Proof. split; vm_compute; reflexivity. Qed.

Lemma home_shows_six_witness :
  (∀ l : list Dataset, random_order l ≡ₚ l)
  ∧ ∃ datasets,
      Site.home = Site.render "core/home.html" (Site.ctx_home datasets) 200
      ∧ length datasets = 2%nat.
Proof.
  assert (∀ l : list Dataset, random_order l ≡ₚ l) as Hrandom
    by (intros l; symmetry; apply Permutation_rev).
  split; [done|].
  destruct (home_shows_six Hrandom) as (datasets & Hhome & Hlen & _).
  exists datasets. split; [done|]. rewrite Hlen. reflexivity.
Defined.

Lemma files_capture_date_is_latest_witness :
  Site.dataset_files_detail "covid19"
  = inr (Site.render "core/dataset_files_list.html"
           (Site.ctx_files "covid19" 18412 ["caso.csv.gz"; "obito.csv.gz"]) 200)
  ∧ ∀ t, t ∈ Dataset_tables "covid19" → collect_date t ≤ 18412.
Proof.
  assert (Site.dataset_files_detail "covid19"
          = inr (Site.render "core/dataset_files_list.html"
                   (Site.ctx_files "covid19" 18412 ["caso.csv.gz"; "obito.csv.gz"]) 200))
    as Hfiles by reflexivity.
  split; [done|].
  exact (proj2 (proj2 (proj2 (proj2
           (files_capture_date_is_latest "covid19" _ _ _ _ _ Hfiles))))).
Defined.

Example contact_sends_one_mail :
  let r := form_request "POST" []
             [("name", "Ana"); ("email", "ana@example.org"); ("message", "Oi")] in
  (Site.contact r).1
  = [{| Site.subject := "Contato no Brasil.IO: Ana";
        Site.body := "Oi";
        Site.from_email := "Ana (via Brasil.IO) <contato@brasil.io>";
        Site.to := ["contato@brasil.io"];
        Site.reply_to := ["Ana <ana@example.org>"] |}]
  ∧ (Site.contact r).2 = Site.redirect "/contato/?sent=true".
Proof. split; reflexivity. Qed.

Example contact_refuses_put :
  (Site.contact (form_request "PUT" [] [("name", "Ana")])).1 = []
  ∧ ∃ context, (Site.contact (form_request "PUT" [] [("name", "Ana")])).2
               = Site.render "4xx.html" context 405.
Proof. split; [reflexivity|]. by eexists. Qed.

Example split_keeps_empty_pieces :
  str_split " " " a  b " = [""; "a"; ""; "b"; ""] ∧ str_split " " "" = [""].
Proof. split; reflexivity. Qed.
End MoreChecks.
